(** * Mermaid batch converter: [.github/scripts/mermaid-to-png.mjs]

    A shallow embedding of the script and the properties its specification
    states about it.  The script is glue code over the Node runtime and four
    dependencies, so the development has three layers:

    - [Js], [Path]: the pure string functions the script calls (the two
      [String.prototype.replace] calls with their regular expressions, the
      template literals, and the POSIX flavour of [node:path]);
    - [Fs], [Glob]: the file system the process runs against, with the three
      [node:fs/promises] calls the script makes, and the [fast-glob] call with
      the options the script passes;
    - [Script]: [ensureDir], [renderOne], [main] and the top-level
      [main().catch(...)], written in a state-and-exception monad over the
      process state.  The diagram renderer ([mermaid.render]), the rasterizer
      ([Resvg]) and the clock ([Date.now]) are parameters.

    Strings are sequences of bytes (UTF-8), as [String.string]. *)

From Stdlib Require Import String Ascii ZArith List DecimalString DecimalZ Lia.
From stdpp Require Import gmap strings list fin_maps.

Open Scope string_scope.

(** ** JavaScript string helpers *)

Module Js.

Definition is_upper (c : ascii) : bool :=
  let n := nat_of_ascii c in (65 <=? n)%nat && (n <=? 90)%nat.

Definition is_lower (c : ascii) : bool :=
  let n := nat_of_ascii c in (97 <=? n)%nat && (n <=? 122)%nat.

Definition is_digit (c : ascii) : bool :=
  let n := nat_of_ascii c in (48 <=? n)%nat && (n <=? 57)%nat.

(** The class [\w] of a regular expression without the [u] flag:
    [[A-Za-z0-9_]].  Every byte of a non-ASCII character is outside it, as
    is every UTF-16 code unit of that character in the JavaScript string. *)
Definition is_word (c : ascii) : bool :=
  is_upper c || is_lower c || is_digit c || Ascii.eqb c "_".

(** Case folding of the [i] flag: only ASCII letters fold onto ASCII
    letters. *)
Definition to_lower (c : ascii) : ascii :=
  if is_upper c then ascii_of_nat (nat_of_ascii c + 32) else c.

Fixpoint lower (s : string) : string :=
  match s with
  | EmptyString => EmptyString
  | String c r => String (to_lower c) (lower r)
  end.

(** [s.replace(/\W+/g, "_")]: every maximal run of non-word characters
    becomes one underscore.  [in_run] tells that the previous character was
    part of the run being replaced. *)
Fixpoint replace_nonword_from (in_run : bool) (s : string) : string :=
  match s with
  | EmptyString => EmptyString
  | String c r =>
      if is_word c then String c (replace_nonword_from false r)
      else if in_run then replace_nonword_from true r
      else String "_" (replace_nonword_from true r)
  end.

Definition replace_nonword (s : string) : string :=
  replace_nonword_from false s.

(** The alternatives of [/\.(mmd|mermaid|txt)$/i], each with its dot. *)
Definition source_exts : list string := [".mmd"; ".mermaid"; ".txt"].

(** The expression is anchored at the end of the input, so it matches at
    a position exactly when the rest of the string is one of the
    alternatives, letter case aside. *)
Definition ext_matches_here (s : string) : bool :=
  existsb (String.eqb (lower s)) source_exts.

(** [s.replace(/\.(mmd|mermaid|txt)$/i, ".png")]: the leftmost match is
    replaced; without a match the string is returned as it is. *)
Fixpoint replace_ext (s : string) : string :=
  if ext_matches_here s then ".png"
  else match s with
       | EmptyString => EmptyString
       | String c r => String c (replace_ext r)
       end.

(** [`${n}`] for an integer-valued number. *)
Definition num_to_string (z : Z) : string :=
  NilZero.string_of_int (Z.to_int z).

(** [xs.join(sep)] *)
Fixpoint join (sep : string) (xs : list string) : string :=
  match xs with
  | [] => ""
  | [x] => x
  | x :: r => x +:+ sep +:+ join sep r
  end.

(** [s.split(sep)] for a one-character separator; [cur] is the piece
    being read, reversed. *)
Fixpoint split_from (sep : ascii) (cur : list ascii) (s : string) : list string :=
  match s with
  | EmptyString => [string_of_list_ascii (rev cur)]
  | String c r =>
      if Ascii.eqb c sep then string_of_list_ascii (rev cur) :: split_from sep [] r
      else split_from sep (c :: cur) r
  end.

Definition split (sep : ascii) (s : string) : list string := split_from sep [] s.

(** [!s.includes(c)] *)
Fixpoint no_char (c : ascii) (s : string) : bool :=
  match s with
  | EmptyString => true
  | String x r => negb (Ascii.eqb x c) && no_char c r
  end.

Definition starts_with_char (c : ascii) (s : string) : bool :=
  match s with
  | String x _ => Ascii.eqb x c
  | EmptyString => false
  end.

Fixpoint ends_with_char (c : ascii) (s : string) : bool :=
  match s with
  | EmptyString => false
  | String x EmptyString => Ascii.eqb x c
  | String _ r => ends_with_char c r
  end.

End Js.

(** ** [node:path], POSIX flavour *)

Module Path.

(** [normalizeString]: drops empty and ["."] segments and resolves [".."]
    against the segments kept so far ([acc], last segment first).  Above
    the root a [".."] is dropped for an absolute path and kept for a
    relative one. *)
Fixpoint normalize_segs (allow_above_root : bool) (acc : list string)
    (segs : list string) : list string :=
  match segs with
  | [] => rev acc
  | s :: r =>
      if String.eqb s "" || String.eqb s "." then normalize_segs allow_above_root acc r
      else if String.eqb s ".." then
        match acc with
        | a :: acc' =>
            if String.eqb a ".." then normalize_segs allow_above_root (s :: acc) r
            else normalize_segs allow_above_root acc' r
        | [] =>
            if allow_above_root then normalize_segs allow_above_root [s] r
            else normalize_segs allow_above_root [] r
        end
      else normalize_segs allow_above_root (s :: acc) r
  end.

Definition is_absolute (p : string) : bool := Js.starts_with_char "/" p.

(** [path.normalize(p)] *)
Definition normalize (p : string) : string :=
  if String.eqb p "" then "."
  else
    let abs := is_absolute p in
    let trailing := Js.ends_with_char "/" p in
    let body := Js.join "/" (normalize_segs (negb abs) [] (Js.split "/" p)) in
    if String.eqb body "" then
      (if abs then "/" else if trailing then "./" else ".")
    else
      let body := if trailing then body +:+ "/" else body in
      if abs then "/" +:+ body else body.

(** [path.join(a, b)]: the non-empty arguments joined by a slash, then
    normalised. *)
Definition join (a b : string) : string :=
  match String.eqb a "", String.eqb b "" with
  | true, true => "."
  | true, false => normalize b
  | false, true => normalize a
  | false, false => normalize (a +:+ "/" +:+ b)
  end.

(** The segments of [path.resolve(p)] in a process whose working directory
    is [cwd] (itself absolute). *)
Definition resolve_segs (cwd p : string) : list string :=
  normalize_segs false []
    (Js.split "/" (if is_absolute p then p else cwd +:+ "/" +:+ p)).

Definition of_segs (segs : list string) : string := "/" +:+ Js.join "/" segs.

(** [path.resolve(p)] *)
Definition resolve (cwd p : string) : string := of_segs (resolve_segs cwd p).

(** [path.basename(p)]: the trailing slashes are ignored and the part
    after the last remaining slash is returned.  The scan goes over the
    reversed path, as the library's loop runs from the last character. *)
Fixpoint drop_slashes (rs : list ascii) : list ascii :=
  match rs with
  | c :: r => if Ascii.eqb c "/" then drop_slashes r else rs
  | [] => []
  end.

Fixpoint take_to_slash (rs : list ascii) : list ascii :=
  match rs with
  | c :: r => if Ascii.eqb c "/" then [] else c :: take_to_slash r
  | [] => []
  end.

Definition basename (p : string) : string :=
  string_of_list_ascii
    (rev (take_to_slash (drop_slashes (rev (list_ascii_of_string p))))).

(** [path.relative(from, to)] for two paths resolved against [cwd]. *)
Fixpoint strip_common (a b : list string) : list string * list string :=
  match a, b with
  | x :: a', y :: b' => if String.eqb x y then strip_common a' b' else (a, b)
  | _, _ => (a, b)
  end.

Definition relative (cwd from to : string) : string :=
  let '(up, down) := strip_common (resolve_segs cwd from) (resolve_segs cwd to) in
  Js.join "/" (map (fun _ => "..") up ++ down).

End Path.

(** ** Thrown values and results *)

(** What the script reads of a thrown value [e]: its [stack] property (empty
    when the value has none) and its conversion to a string.  Thrown values
    are objects; [null] and [undefined] are not thrown by the libraries the
    script calls. *)
Record JsError := mkError { err_stack : string; err_text : string }.

(** An [Error] object: [stack] starts with the text of the error. *)
Definition error_of (text : string) : JsError :=
  {| err_stack := text; err_text := text |}.

Inductive Result (A : Type) : Type :=
| Ok (a : A)
| Throw (e : JsError).
Arguments Ok {A} a.
Arguments Throw {A} e.

Definition is_ok {A} (r : Result A) : bool :=
  match r with Ok _ => true | Throw _ => false end.


(** ** The file system *)

Module Fs.

(** A regular file carries its permission bits for the process and its
    bytes; paths are lists of segments below the root, which is always a
    directory. *)
Inductive Node :=
| File (readable writable : bool) (data : string)
| Dir.

Definition node (fs : gmap (list string) Node) (p : list string) : option Node :=
  match p with
  | [] => Some Dir
  | _ => fs !! p
  end.

Definition is_file (fs : gmap (list string) Node) (p : list string) : bool :=
  match node fs p with Some (File _ _ _) => true | _ => false end.

Definition is_dir (fs : gmap (list string) Node) (p : list string) : bool :=
  match node fs p with Some Dir => true | _ => false end.

(** The bytes stored at [p], permissions aside. *)
Definition data_at (fs : gmap (list string) Node) (p : list string) : option string :=
  match node fs p with Some (File _ _ d) => Some d | _ => None end.

Definition parent (p : list string) : list string := removelast p.

(** The non-empty prefixes of a path, shortest first: the directories
    [mkdir -p] walks through. *)
Fixpoint prefixes (p : list string) : list (list string) :=
  match p with
  | [] => []
  | s :: r => [s] :: map (cons s) (prefixes r)
  end.

(** The directory [p] exists, and so do the directories above it. *)
Definition dir_exists (fs : gmap (list string) Node) (p : list string) : bool :=
  forallb (is_dir fs) (prefixes p).

Definition sys_error (code what path : string) : JsError :=
  error_of ("Error: " +:+ code +:+ ": " +:+ what +:+ " '" +:+ path +:+ "'").

(** [fs.readFile(path, "utf8")] *)
Definition readFile (cwd : string) (fs : gmap (list string) Node) (path : string)
  : Result string :=
  match node fs (Path.resolve_segs cwd path) with
  | Some (File true _ d) => Ok d
  | Some (File false _ _) => Throw (sys_error "EACCES" "permission denied, open" path)
  | Some Dir => Throw (sys_error "EISDIR" "illegal operation on a directory, read" path)
  | None => Throw (sys_error "ENOENT" "no such file or directory, open" path)
  end.

Definition make_dirs (fs : gmap (list string) Node) (p : list string)
  : gmap (list string) Node :=
  foldr (fun q m => <[q := Dir]> m) fs (prefixes p).

(** [fs.mkdir(path, { recursive })].  With [recursive] every missing
    directory on the way is created and an existing directory is not an
    error; a regular file on the way is.  Without it the directory must be
    new and its parent must exist. *)
Definition mkdir (cwd : string) (fs : gmap (list string) Node) (path : string)
    (recursive : bool) : Result unit * gmap (list string) Node :=
  let p := Path.resolve_segs cwd path in
  if recursive then
    if existsb (is_file fs) (prefixes p) then
      (Throw (sys_error (if is_file fs p then "EEXIST" else "ENOTDIR")
                "mkdir" path), fs)
    else (Ok tt, make_dirs fs p)
  else
    match node fs p with
    | Some _ => (Throw (sys_error "EEXIST" "file already exists, mkdir" path), fs)
    | None =>
        if is_dir fs (parent p) then (Ok tt, <[p := Dir]> fs)
        else (Throw (sys_error "ENOENT" "no such file or directory, mkdir" path), fs)
    end.

(** [fs.writeFile(path, data)]: replaces the bytes of a writable file, or
    creates the file in an existing directory. *)
Definition writeFile (cwd : string) (fs : gmap (list string) Node) (path data : string)
  : Result unit * gmap (list string) Node :=
  let p := Path.resolve_segs cwd path in
  match node fs p with
  | Some Dir =>
      (Throw (sys_error "EISDIR" "illegal operation on a directory, open" path), fs)
  | Some (File r w _) =>
      if w then (Ok tt, <[p := File r w data]> fs)
      else (Throw (sys_error "EACCES" "permission denied, open" path), fs)
  | None =>
      if is_dir fs (parent p) then (Ok tt, <[p := File true true data]> fs)
      else (Throw (sys_error "ENOENT" "no such file or directory, open" path), fs)
  end.

End Fs.

(** ** The file locator: [fast-glob]

    [fast-glob] is a dependency of the script.  The model follows the
    documented meaning of the five options the script sets, over the pattern
    syntax the script's default uses: literal characters, [?], [*] inside a
    segment, and the segment [**]. *)

Module Glob.

Record Options := {
  dot : bool;
  absolute : bool;
  onlyFiles : bool;
  unique : bool;
  caseSensitiveMatch : bool
}.

Inductive Tok := TLit (c : ascii) | TAny | TStar.

Inductive Seg := Globstar | Name (ts : list Tok).

Fixpoint tokens (s : string) : list Tok :=
  match s with
  | EmptyString => []
  | String c r =>
      (if Ascii.eqb c "*" then TStar else if Ascii.eqb c "?" then TAny else TLit c)
        :: tokens r
  end.

Definition parse_seg (s : string) : Seg :=
  if String.eqb s "**" then Globstar else Name (tokens s).

Definition skipped (s : string) : bool := String.eqb s "" || String.eqb s ".".

Definition parse (pattern : string) : list Seg :=
  map parse_seg (filter (fun s => negb (skipped s)) (Js.split "/" pattern)).

Definition char_eq (nocase : bool) (a b : ascii) : bool :=
  if nocase then Ascii.eqb (Js.to_lower a) (Js.to_lower b) else Ascii.eqb a b.

Fixpoint tok_match (nocase : bool) (ts : list Tok) (s : string) : bool :=
  match ts with
  | [] => match s with EmptyString => true | _ => false end
  | TLit c :: ts' =>
      match s with
      | String x s' => char_eq nocase c x && tok_match nocase ts' s'
      | EmptyString => false
      end
  | TAny :: ts' =>
      match s with
      | String _ s' => tok_match nocase ts' s'
      | EmptyString => false
      end
  | TStar :: ts' =>
      (fix star (s : string) : bool :=
         tok_match nocase ts' s
         || match s with
            | String _ s' => star s'
            | EmptyString => false
            end) s
  end.

Definition hidden (s : string) : bool := Js.starts_with_char "." s.

Definition explicit_dot (ts : list Tok) : bool :=
  match ts with
  | TLit c :: _ => Ascii.eqb c "."
  | _ => false
  end.

(** One segment of the pattern against one name.  Without [dot], a name
    with a leading period is matched only by a segment that spells the
    period out. *)
Definition seg_match (dot nocase : bool) (ts : list Tok) (s : string) : bool :=
  (dot || negb (hidden s) || explicit_dot ts) && tok_match nocase ts s.

Fixpoint path_match (dot nocase : bool) (pat : list Seg) (segs : list string) : bool :=
  match pat with
  | [] => match segs with [] => true | _ => false end
  | Globstar :: pat' =>
      (fix globstar (segs : list string) : bool :=
         path_match dot nocase pat' segs
         || match segs with
            | s :: segs' => (dot || negb (hidden s)) && globstar segs'
            | [] => false
            end) segs
  | Name ts :: pat' =>
      match segs with
      | s :: segs' => seg_match dot nocase ts s && path_match dot nocase pat' segs'
      | [] => false
      end
  end.


(** [strip base p] is the path [p] relative to the directory [base], when
    [p] lies below it. *)
Fixpoint strip (base p : list string) : option (list string) :=
  match base with
  | [] => Some p
  | b :: base' =>
      match p with
      | s :: p' => if String.eqb b s then strip base' p' else None
      | [] => None
      end
  end.

(** The entries one pattern selects, in the order the file system lists
    them.  A relative pattern is matched below the working directory, an
    absolute one below the root. *)
Definition selected (opts : Options) (cwd : string) (fs : gmap (list string) Fs.Node)
    (pattern : string) : list string :=
  let base := if Path.is_absolute pattern then [] else Path.resolve_segs cwd "" in
  omap (fun '(p, n) =>
          match strip base p with
          | Some rel =>
              if path_match (dot opts) (negb (caseSensitiveMatch opts)) (parse pattern) rel
                 && (negb (onlyFiles opts)
                     || match n with Fs.File _ _ _ => true | Fs.Dir => false end)
              then Some (if absolute opts || Path.is_absolute pattern
                         then Path.of_segs p else Js.join "/" rel)
              else None
          | None => None
          end)
       (map_to_list fs).

(** [fg(patterns, opts)] *)
Definition fast_glob (patterns : list string) (opts : Options) (cwd : string)
    (fs : gmap (list string) Fs.Node) : Result (list string) :=
  if existsb (String.eqb "") patterns then
    Throw (error_of "TypeError: Patterns must be a string (non empty) or an array of strings")
  else
    let found := flat_map (selected opts cwd fs) patterns in
    Ok (if unique opts then remove_dups found else found).

End Glob.

(** ** The script *)

(** *** Configuration via the environment (script lines 13-15) *)

Record Config := {
  INPUT_PATTERN : string;
  OUTPUT_DIR : string;
  MERMAID_THEME : string
}.

(** [process.env.KEY || fallback]: an unset or empty variable gives the
    fallback. *)
Definition env_or (env : gmap string string) (key fallback : string) : string :=
  match env !! key with
  | Some v => if String.eqb v "" then fallback else v
  | None => fallback
  end.

Definition config_of_env (env : gmap string string) : Config :=
  {| INPUT_PATTERN := env_or env "INPUT_PATTERN" "diagrams/**/*.mmd";
     OUTPUT_DIR := env_or env "OUTPUT_DIR" "diagrams";
     MERMAID_THEME := env_or env "MERMAID_THEME" "default" |}.

(** *** Process state *)

(** The calls the script makes to the runtime and to its dependencies.  The
    process state keeps them in the order they are made, each with a flag
    that tells whether the call returned ([true]) or threw ([false]). *)
Inductive Call :=
| CallGlob (patterns : list string) (opts : Glob.Options)
| CallReadFile (path : string)
| CallNow
| CallRender (id code : string)
| CallResvg (svg : string)
| CallMkdir (path : string) (recursive : bool)
| CallWriteFile (path data : string).

Inductive Stream := Stdout | Stderr.

(** [Dom] is the state of the process-wide document ([global.window],
    [global.document]) and of the [mermaid] singleton initialised on it. *)
Record World (Dom : Type) := mkWorld {
  w_cwd : string;
  w_fs : gmap (list string) Fs.Node;
  w_dom : Dom;
  w_ticks : nat;
  w_console : list (Stream * string);
  w_calls : list (Call * bool)
}.
Arguments mkWorld {Dom}.
Arguments w_cwd {Dom}.
Arguments w_fs {Dom}.
Arguments w_dom {Dom}.
Arguments w_ticks {Dom}.
Arguments w_console {Dom}.
Arguments w_calls {Dom}.

(** The dependencies whose code is not the script's: the locator, the
    renderer (which reads and updates the document), the rasterizer and the
    clock, whose [n]-th reading in the process is [lib_now n]. *)
Record Libs (Dom : Type) := {
  lib_fg : list string -> Glob.Options -> string -> gmap (list string) Fs.Node
           -> Result (list string);
  lib_render : string -> Dom -> string -> string -> Result string * Dom;
  lib_resvg : string -> Result string;
  lib_now : nat -> Z
}.
Arguments lib_fg {Dom}.
Arguments lib_render {Dom}.
Arguments lib_resvg {Dom}.
Arguments lib_now {Dom}.

Record Tally := { ok : nat; fail : nat }.

Section Script.

Context {Dom : Type} (L : Libs Dom) (cfg : Config).

(** **** Asynchronous code with exceptions: state is kept when a step
    throws, and [await] is sequencing. *)
Definition M (A : Type) : Type := World Dom -> Result A * World Dom.

Definition ret {A} (a : A) : M A := fun w => (Ok a, w).

Definition bind {A B} (m : M A) (k : A -> M B) : M B :=
  fun w =>
    match m w with
    | (Ok a, w') => k a w'
    | (Throw e, w') => (Throw e, w')
    end.

Definition try_catch {A} (m : M A) (handler : JsError -> M A) : M A :=
  fun w =>
    match m w with
    | (Ok a, w') => (Ok a, w')
    | (Throw e, w') => handler e w'
    end.

Notation "x <- m ;; k" := (bind m (fun x => k))
  (at level 100, m at next level, right associativity).
Notation "m ;;; k" := (bind m (fun _ => k))
  (at level 100, right associativity).

Definition called {A} (c : Call) (r : Result A) (w : World Dom) : World Dom :=
  mkWorld (w_cwd w) (w_fs w) (w_dom w) (w_ticks w) (w_console w)
    (w_calls w ++ [(c, is_ok r)]).

Definition with_fs (fs : gmap (list string) Fs.Node) (w : World Dom) : World Dom :=
  mkWorld (w_cwd w) fs (w_dom w) (w_ticks w) (w_console w) (w_calls w).

Definition with_dom (d : Dom) (w : World Dom) : World Dom :=
  mkWorld (w_cwd w) (w_fs w) d (w_ticks w) (w_console w) (w_calls w).

Definition ticked (w : World Dom) : World Dom :=
  mkWorld (w_cwd w) (w_fs w) (w_dom w) (S (w_ticks w)) (w_console w) (w_calls w).

Definition printed (s : Stream) (line : string) (w : World Dom) : World Dom :=
  mkWorld (w_cwd w) (w_fs w) (w_dom w) (w_ticks w) (w_console w ++ [(s, line)]) (w_calls w).

(** **** The calls *)

Definition fg (patterns : list string) (opts : Glob.Options) : M (list string) :=
  fun w =>
    let r := lib_fg L patterns opts (w_cwd w) (w_fs w) in
    (r, called (CallGlob patterns opts) r w).

Definition fs_readFile (path : string) : M string :=
  fun w =>
    let r := Fs.readFile (w_cwd w) (w_fs w) path in
    (r, called (CallReadFile path) r w).

Definition fs_mkdir (path : string) (recursive : bool) : M unit :=
  fun w =>
    let '(r, fs') := Fs.mkdir (w_cwd w) (w_fs w) path recursive in
    (r, with_fs fs' (called (CallMkdir path recursive) r w)).

Definition fs_writeFile (path data : string) : M unit :=
  fun w =>
    let '(r, fs') := Fs.writeFile (w_cwd w) (w_fs w) path data in
    (r, with_fs fs' (called (CallWriteFile path data) r w)).

Definition Date_now : M Z :=
  fun w =>
    let r := Ok (lib_now L (w_ticks w)) in
    (r, ticked (called CallNow r w)).

Definition mermaid_render (id code : string) : M string :=
  fun w =>
    let '(r, d') := lib_render L (MERMAID_THEME cfg) (w_dom w) id code in
    (r, with_dom d' (called (CallRender id code) r w)).

(** [new Resvg(svg, {...}).render().asPng()] *)
Definition resvg_png (svg : string) : M string :=
  fun w =>
    let r := lib_resvg L svg in
    (r, called (CallResvg svg) r w).

Definition path_resolve (p : string) : M string :=
  fun w => (Ok (Path.resolve (w_cwd w) p), w).

Definition path_relative_to_cwd (p : string) : M string :=
  fun w => (Ok (Path.relative (w_cwd w) (w_cwd w) p), w).

Definition console_log (line : string) : M unit :=
  fun w => (Ok tt, printed Stdout line w).

Definition console_error (line : string) : M unit :=
  fun w => (Ok tt, printed Stderr line w).

(** **** Script lines 35-62 *)

Definition ensureDir (p : string) : M unit := fs_mkdir p true.

(** [`mmd_${path.basename(mmdPath).replace(/\W+/g, "_")}_${Date.now()}`] *)
Definition diagramId (mmdPath : string) (now : Z) : string :=
  "mmd_" +:+ Js.replace_nonword (Path.basename mmdPath) +:+ "_" +:+ Js.num_to_string now.

Definition outName (mmdPath : string) : string :=
  Js.replace_ext (Path.basename mmdPath).

Definition renderOne (mmdPath : string) : M string :=
  code <- fs_readFile mmdPath ;;
  now <- Date_now ;;
  let id := diagramId mmdPath now in
  svg <- mermaid_render id code ;;
  pngData <- resvg_png svg ;;
  outDir <- path_resolve (OUTPUT_DIR cfg) ;;
  ensureDir outDir ;;;
  let outPath := Path.join outDir (outName mmdPath) in
  fs_writeFile outPath pngData ;;;
  ret outPath.

(** **** Script lines 64-97 *)

Definition fg_options : Glob.Options :=
  {| Glob.dot := false;
     Glob.absolute := true;
     Glob.onlyFiles := true;
     Glob.unique := true;
     Glob.caseSensitiveMatch := false |}.

(** [e.stack || e] inside a template literal. *)
Definition err_detail (e : JsError) : string :=
  if String.eqb (err_stack e) "" then err_text e else err_stack e.

Definition nat_to_string (n : nat) : string := Js.num_to_string (Z.of_nat n).

Definition success_line (rel_in rel_out : string) : string :=
  "✓ " +:+ rel_in +:+ " → " +:+ rel_out.

Definition failure_line (f : string) (e : JsError) : string :=
  "✗ Failed: " +:+ f +:+ String "010" (err_detail e).

Definition summary_line (t : Tally) : string :=
  "Done. Success: " +:+ nat_to_string (ok t) +:+ ", Failed: " +:+ nat_to_string (fail t).

(** The body of the [for] loop: the [try] block and its [catch]. *)
Definition loop_body (f : string) (t : Tally) : M Tally :=
  try_catch
    (out <- renderOne f ;;
     rel_in <- path_relative_to_cwd f ;;
     rel_out <- path_relative_to_cwd out ;;
     console_log (success_line rel_in rel_out) ;;;
     ret {| ok := S (ok t); fail := fail t |})
    (fun e =>
       console_error (failure_line f e) ;;;
       ret {| ok := ok t; fail := S (fail t) |}).

Fixpoint for_of (files : list string) (t : Tally) : M Tally :=
  match files with
  | [] => ret t
  | f :: rest => t' <- loop_body f t ;; for_of rest t'
  end.

(** [main]; the value returned is that of the two counters [ok] and [fail]
    when the function returns. *)
Definition main : M Tally :=
  files <- fg [INPUT_PATTERN cfg] fg_options ;;
  if (length files =? 0)%nat then
    console_log ("No Mermaid files matched pattern: " +:+ INPUT_PATTERN cfg) ;;;
    ret {| ok := 0; fail := 0 |}
  else
    console_log ("Rendering " +:+ nat_to_string (length files)
                 +:+ " Mermaid file(s) to PNG (no browser)...") ;;;
    t <- for_of files {| ok := 0; fail := 0 |} ;;
    console_log (summary_line t) ;;;
    ret t.

(** [main().catch((e) => { console.error(e); process.exit(1); })]: the exit
    status of the process and the state it leaves. *)
Definition run (w : World Dom) : Z * World Dom :=
  match main w with
  | (Ok _, w') => (0%Z, w')
  | (Throw e, w') => (1%Z, printed Stderr (err_detail e) w')
  end.

Definition exit_status (w : World Dom) : Z := fst (run w).



(** The path [renderOne] writes the image of [f] to. *)
Definition outPath (cwd f : string) : string :=
  Path.join (Path.resolve cwd (OUTPUT_DIR cfg)) (outName f).

End Script.

(** ** A concrete process to run the script in *)

Module Demo.

(** A stand-in renderer without state: a source is accepted when it starts
    with a diagram keyword, and the markup is made of the theme and the
    source. *)
Definition render (theme : string) (d : unit) (id code : string) : Result string * unit :=
  if String.prefix "graph" code || String.prefix "flowchart" code then
    (Ok ("<svg class=" +:+ theme +:+ ">" +:+ code +:+ "</svg>"), tt)
  else (Throw (error_of "UnknownDiagramError: No diagram type detected"), tt).

(** A stand-in rasterizer: the image is a signature followed by the markup
    after its opening tag. *)
Fixpoint after_tag (s : string) : string :=
  match s with
  | EmptyString => EmptyString
  | String c r => if Ascii.eqb c ">" then r else after_tag r
  end.

Definition resvg (svg : string) : Result string :=
  if String.prefix "<svg" svg then Ok ("PNG:" +:+ after_tag svg)
  else Throw (error_of "Error: SVG data parsing failed").

Definition libs (now : nat -> Z) : Libs unit :=
  {| lib_fg := Glob.fast_glob;
     lib_render := render;
     lib_resvg := resvg;
     lib_now := now |}.

Definition world (cwd : string) (fs : gmap (list string) Fs.Node) : World unit :=
  mkWorld cwd fs tt 0 [] [].

Definition steady_clock (n : nat) : Z := (1700000000000 + 40 * Z.of_nat n)%Z.

Definition default_cfg : Config :=
  {| INPUT_PATTERN := "diagrams/**/*.mmd";
     OUTPUT_DIR := "diagrams";
     MERMAID_THEME := "default" |}.

Definition valid : string := "graph TD; A-->B".
Definition broken : string := "grph TD; A--B".

Definition fs1 : gmap (list string) Fs.Node :=
  list_to_map
    [ (["w"], Fs.Dir);
      (["w"; "diagrams"], Fs.Dir);
      (["w"; "diagrams"; "a.mmd"], Fs.File true true valid);
      (["w"; "diagrams"; "b.mmd"], Fs.File true true broken) ].

(** The same tree with two sources that do not parse. *)
Definition fs_all_broken : gmap (list string) Fs.Node :=
  list_to_map
    [ (["w"], Fs.Dir);
      (["w"; "diagrams"], Fs.Dir);
      (["w"; "diagrams"; "b.mmd"], Fs.File true true broken);
      (["w"; "diagrams"; "c.mmd"], Fs.File true true broken) ].

(** [OUTPUT_DIR=out], and [out] is a regular file in the working
    directory. *)
Definition cfg_out : Config :=
  {| INPUT_PATTERN := "diagrams/**/*.mmd";
     OUTPUT_DIR := "out";
     MERMAID_THEME := "default" |}.

Definition fs_out_is_file : gmap (list string) Fs.Node :=
  list_to_map
    [ (["w"], Fs.Dir);
      (["w"; "out"], Fs.File true true "not a directory");
      (["w"; "diagrams"], Fs.Dir);
      (["w"; "diagrams"; "a.mmd"], Fs.File true true valid) ].

(** [INPUT_PATTERN=notes/*.md]: sources kept under another extension. *)
Definition cfg_md : Config :=
  {| INPUT_PATTERN := "notes/*.md";
     OUTPUT_DIR := "diagrams";
     MERMAID_THEME := "default" |}.

Definition fs_md : gmap (list string) Fs.Node :=
  list_to_map
    [ (["w"], Fs.Dir);
      (["w"; "notes"], Fs.Dir);
      (["w"; "notes"; "a.md"], Fs.File true true valid) ].

(** Two sources with one base name, and a clock that is read twice within
    one millisecond. *)
Definition fs_same_name : gmap (list string) Fs.Node :=
  list_to_map
    [ (["w"], Fs.Dir);
      (["w"; "diagrams"], Fs.Dir);
      (["w"; "diagrams"; "x"], Fs.Dir);
      (["w"; "diagrams"; "y"], Fs.Dir);
      (["w"; "diagrams"; "x"; "a.mmd"], Fs.File true true valid);
      (["w"; "diagrams"; "y"; "a.mmd"], Fs.File true true broken) ].

Definition coarse_clock (n : nat) : Z := 1700000000000%Z.





(** A tree without diagram sources. *)
Definition fs_empty : gmap (list string) Fs.Node :=
  list_to_map [ (["w"], Fs.Dir); (["w"; "README.md"], Fs.File true true "docs") ].

End Demo.

(** ** File systems one run apart *)

Section Later.

(** [D] is the output directory and [F] the path of one input file. *)
Variables (D F : list string).

(** [mkdir -p D] can succeed: no regular file is in the way. *)
Definition mkdir_ok (fs : gmap (list string) Fs.Node) : bool :=
  negb (existsb (Fs.is_file fs) (Fs.prefixes D)).



End Later.

(** ** Observations on a run *)

Section Observations.

Context {Dom : Type}.

(** The calls made between two states of one process. *)
Definition calls_since (w w' : World Dom) : list (Call * bool) :=
  drop (length (w_calls w)) (w_calls w').

Definition is_mkdir (c : Call) : bool :=
  match c with CallMkdir _ _ => true | _ => false end.

Definition is_write (c : Call) : bool :=
  match c with CallWriteFile _ _ => true | _ => false end.

(** The calls that change the file system. *)
Definition touches_disk (c : Call) : bool := is_mkdir c || is_write c.

(** The calls of the steps before the output directory is needed. *)
Definition is_conversion_step (c : Call) : bool :=
  match c with
  | CallReadFile _ | CallRender _ _ | CallResvg _ => true
  | _ => false
  end.

(** The identifiers handed to the renderer, in order. *)
Definition render_ids (calls : list (Call * bool)) : list string :=
  omap (fun cb => match fst cb with CallRender id _ => Some id | _ => None end) calls.

(** The identifiers handed out so far are distinct and made from readings
    of the clock already taken. *)
Definition ids_fresh (L : Libs Dom) (w : World Dom) : Prop :=
  NoDup (render_ids (w_calls w))
  /\ forall id, In id (render_ids (w_calls w)) ->
                exists g k, k < w_ticks w /\ id = diagramId g (lib_now L k).

(** The calls of one conversion of the file [f] with output directory
    [outDir], by the step at which it ends; the flag tells whether the
    conversion ran to its end. *)
Inductive conversion_calls (f outDir : string) : bool -> list (Call * bool) -> Prop :=
| ends_at_read :
    conversion_calls f outDir false [(CallReadFile f, false)]
| ends_at_render id code :
    conversion_calls f outDir false
      [(CallReadFile f, true); (CallNow, true); (CallRender id code, false)]
| ends_at_resvg id code svg :
    conversion_calls f outDir false
      [(CallReadFile f, true); (CallNow, true); (CallRender id code, true);
       (CallResvg svg, false)]
| ends_at_mkdir id code svg :
    conversion_calls f outDir false
      [(CallReadFile f, true); (CallNow, true); (CallRender id code, true);
       (CallResvg svg, true); (CallMkdir outDir true, false)]
| ends_at_write id code svg png (written : bool) :
    conversion_calls f outDir written
      [(CallReadFile f, true); (CallNow, true); (CallRender id code, true);
       (CallResvg svg, true); (CallMkdir outDir true, true);
       (CallWriteFile (Path.join outDir (outName f)) png, written)].

End Observations.

(** ** Further observations *)

(** [p] holds of every character of [s]. *)
Fixpoint all_chars (p : ascii -> bool) (s : string) : bool :=
  match s with
  | EmptyString => true
  | String c r => p c && all_chars p r
  end.

(** [p] holds of [s] or of what is left of it after some of its first
    characters: of a position where an end-anchored expression can match. *)
Fixpoint any_tail (p : string -> bool) (s : string) : bool :=
  p s || match s with
         | EmptyString => false
         | String _ r => any_tail p r
         end.

(** [/\.(mmd|mermaid|txt)$/i.test(s)] *)
Definition has_source_ext (s : string) : bool := any_tail Js.ext_matches_here s.

(** A file name: not empty, not [.] or [..], and without a slash. *)
Definition plain (s : string) : bool :=
  negb (String.eqb s "" || String.eqb s "." || String.eqb s "..")
  && Js.no_char "/" s.

Fixpoint count {A : Type} (p : A -> bool) (l : list A) : nat :=
  match l with
  | [] => 0
  | x :: r => (if p x then 1 else 0) + count p r
  end.

Definition is_glob (c : Call) : bool :=
  match c with CallGlob _ _ => true | _ => false end.

(** The paths handed to [readFile], in order. *)
Definition read_paths (calls : list (Call * bool)) : list string :=
  omap (fun cb => match fst cb with CallReadFile p => Some p | _ => None end) calls.

(** The [writeFile] calls that returned. *)
Definition write_returned (cb : Call * bool) : bool := is_write (fst cb) && snd cb.

Definition on_stream (s : Stream) (line : Stream * string) : bool :=
  match s, fst line with
  | Stdout, Stdout | Stderr, Stderr => true
  | _, _ => false
  end.

(** The line the loop prints for the file [f]: its success line on the
    standard output, or its failure line on the standard error. *)
Definition line_of (cwd f : string) (line : Stream * string) : Prop :=
  (exists out,
      line = (Stdout, "✓ " +:+ Path.relative cwd cwd f +:+ " → "
                      +:+ Path.relative cwd cwd out))
  \/ (exists e, line = (Stderr, "✗ Failed: " +:+ f +:+ String "010" (err_detail e))).

(** The calls of a loop over [files] with output directory [outDir]: those
    of one conversion per file, in the order of the list; [oks] and [fails]
    count the conversions that ran to their end and the others. *)
Inductive batch_calls (outDir : string) :
  list string -> nat -> nat -> list (Call * bool) -> Prop :=
| batch_done : batch_calls outDir [] 0 0 []
| batch_next f files b cs rest oks fails :
    conversion_calls f outDir b cs ->
    batch_calls outDir files oks fails rest ->
    batch_calls outDir (f :: files)
      ((if b then 1 else 0) + oks) ((if b then 0 else 1) + fails) (cs ++ rest)%list.

(** A locator that cannot list the working directory. *)
Definition failing_fg (patterns : list string) (opts : Glob.Options) (cwd : string)
    (fs : gmap (list string) Fs.Node) : Result (list string) :=
  Throw (Fs.sys_error "EACCES" "permission denied, scandir" cwd).

Definition libs_failing_fg : Libs unit :=
  {| lib_fg := failing_fg;
     lib_render := Demo.render;
     lib_resvg := Demo.resvg;
     lib_now := Demo.steady_clock |}.

(** Nothing of [fs] is lost in [fs']: its directories are directories of
    [fs'], and its files are files of [fs'] with the permissions they had. *)
Definition kept (fs fs' : gmap (list string) Fs.Node) : Prop :=
  (forall q, Fs.is_dir fs q = true -> Fs.is_dir fs' q = true)
  /\ (forall q r w d,
         Fs.node fs q = Some (Fs.File r w d) ->
         exists d', Fs.node fs' q = Some (Fs.File r w d')).

(** The files the locator hands to the loop in the state [w]. *)
Definition matched {Dom : Type} (L : Libs Dom) (cfg : Config) (w : World Dom)
  : list string :=
  match lib_fg L [INPUT_PATTERN cfg] fg_options (w_cwd w) (w_fs w) with
  | Ok files => files
  | Throw _ => []
  end.

(** The places a run over [files] can create or write to: the output
    directory with the directories above it, and the output paths of the
    files. *)
Definition may_change (cfg : Config) (cwd : string) (files : list string)
    (q : list string) : bool :=
  bool_decide
    (q ∈ Fs.prefixes (Path.resolve_segs cwd (Path.resolve cwd (OUTPUT_DIR cfg))))
  || existsb (fun g => bool_decide (Path.resolve_segs cwd (outPath cfg cwd g) = q)) files.

(** A [writeFile] call for the path [p] returned. *)
Definition has_written (p : string) (calls : list (Call * bool)) : bool :=
  existsb (fun cb =>
             match cb with
             | (CallWriteFile q _, true) => String.eqb q p
             | _ => false
             end) calls.

(** The paths [a] and [b] have no first segment in common. *)
Definition diverge (a b : list string) : bool :=
  match a, b with
  | x :: _, y :: _ => negb (String.eqb x y)
  | _, _ => true
  end.



(** * Properties *)

(** ** The file system calls *)

Module FsFacts.

(** A call that throws leaves the file system as it was. *)
Lemma mkdir_throw_unchanged (cwd : string) (fs : gmap (list string) Fs.Node)
    (path : string) (recursive : bool) :
  is_ok (fst (Fs.mkdir cwd fs path recursive)) = false ->
  snd (Fs.mkdir cwd fs path recursive) = fs.
Proof.
  unfold Fs.mkdir. destruct recursive.
  - destruct (existsb _ _); [reflexivity|discriminate].
  - destruct (Fs.node fs _); [reflexivity|].
    destruct (Fs.is_dir fs _); [discriminate|reflexivity].
Qed.

Lemma writeFile_throw_unchanged (cwd : string) (fs : gmap (list string) Fs.Node)
    (path data : string) :
  is_ok (fst (Fs.writeFile cwd fs path data)) = false ->
  snd (Fs.writeFile cwd fs path data) = fs.
Proof.
  unfold Fs.writeFile.
  destruct (Fs.node fs _) as [[r w d|]|].
  - destruct w; [discriminate|reflexivity].
  - reflexivity.
  - destruct (Fs.is_dir fs _); [discriminate|reflexivity].
Qed.

Lemma make_dirs_lookup (fs : gmap (list string) Fs.Node) (p q : list string) :
  Fs.make_dirs fs p !! q = if decide (q ∈ Fs.prefixes p) then Some Fs.Dir else fs !! q.
Proof.
  unfold Fs.make_dirs. induction (Fs.prefixes p) as [|x l IH]; cbn [foldr].
  - destruct (decide (q ∈ [])) as [H|H]; [inversion H|reflexivity].
  - destruct (decide (x = q)) as [->|Hne].
    + rewrite lookup_insert_eq. destruct (decide (q ∈ q :: l)) as [H|H]; [reflexivity|].
      exfalso. apply H. left.
    + rewrite lookup_insert_ne by exact Hne. rewrite IH.
      destruct (decide (q ∈ l)) as [H|H]; destruct (decide (q ∈ x :: l)) as [H'|H'];
        try reflexivity.
      * exfalso. apply H'. right. exact H.
      * exfalso. apply elem_of_cons in H' as [->|H']; [apply Hne; reflexivity|exact (H H')].
Qed.

Lemma prefixes_nonempty (p q : list string) : q ∈ Fs.prefixes p -> q <> [].
Proof.
  destruct p as [|s r]; cbn; intros H; [inversion H|].
  apply elem_of_cons in H as [->|H]; [discriminate|].
  apply list_elem_of_fmap in H as (y & -> & _). discriminate.
Qed.

(** Creating a directory that exists changes nothing. *)
Lemma make_dirs_existing (fs : gmap (list string) Fs.Node) (p : list string) :
  Fs.dir_exists fs p = true -> Fs.make_dirs fs p = fs.
Proof.
  intros H. apply map_eq. intros q. rewrite make_dirs_lookup.
  destruct (decide (q ∈ Fs.prefixes p)) as [Hin|]; [|reflexivity].
  unfold Fs.dir_exists in H. rewrite forallb_forall in H.
  specialize (H q (proj1 (list_elem_of_In _ _) Hin)).
  pose proof (prefixes_nonempty _ _ Hin) as Hne.
  unfold Fs.is_dir, Fs.node in H. destruct q as [|x q]; [contradiction|].
  destruct (fs !! (x :: q)) as [[| ]|]; try discriminate. reflexivity.
Qed.

Lemma dir_exists_no_file (fs : gmap (list string) Fs.Node) (p : list string) :
  Fs.dir_exists fs p = true -> existsb (Fs.is_file fs) (Fs.prefixes p) = false.
Proof.
  unfold Fs.dir_exists. intros H.
  apply not_true_is_false. intros He.
  apply existsb_exists in He as (q & Hin & Hf).
  rewrite forallb_forall in H. specialize (H q Hin).
  unfold Fs.is_dir, Fs.is_file in *. destruct (Fs.node fs q) as [[| ]|]; discriminate.
Qed.

(** A write that returns stores the data at the path. *)
Lemma writeFile_ok_data (cwd : string) (fs : gmap (list string) Fs.Node)
    (path data : string) :
  is_ok (fst (Fs.writeFile cwd fs path data)) = true ->
  Fs.data_at (snd (Fs.writeFile cwd fs path data)) (Path.resolve_segs cwd path)
  = Some data.
Proof.
  unfold Fs.writeFile, Fs.data_at.
  destruct (Path.resolve_segs cwd path) as [|x q] eqn:E.
  - cbn. discriminate.
  - cbn [Fs.node]. destruct (fs !! (x :: q)) as [[r w d|]|].
    + destruct w; [|discriminate]. intros _. cbn [snd Fs.node].
      rewrite lookup_insert_eq. reflexivity.
    + discriminate.
    + destruct (Fs.is_dir fs _); [|discriminate]. intros _. cbn [snd Fs.node].
      rewrite lookup_insert_eq. reflexivity.
Qed.

Lemma node_make_dirs (fs : gmap (list string) Fs.Node) (D p : list string) :
  Fs.node (Fs.make_dirs fs D) p
  = if decide (p ∈ Fs.prefixes D) then Some Fs.Dir else Fs.node fs p.
Proof.
  destruct p as [|x p].
  - destruct (decide ([] ∈ Fs.prefixes D)) as [H|H]; [|reflexivity].
    exfalso. exact (prefixes_nonempty _ _ H eq_refl).
  - cbn [Fs.node]. apply make_dirs_lookup.
Qed.

Lemma node_insert (fs : gmap (list string) Fs.Node) (P p : list string) (n : Fs.Node) :
  P <> [] ->
  Fs.node (<[P := n]> fs) p = if decide (p = P) then Some n else Fs.node fs p.
Proof.
  intros HP. destruct (decide (p = P)) as [->|Hne].
  - destruct P as [|x P]; [contradiction|]. cbn [Fs.node]. apply lookup_insert_eq.
  - destruct p as [|x p]; [reflexivity|]. cbn [Fs.node].
    apply lookup_insert_ne. congruence.
Qed.

Lemma mkdir_recursive (cwd : string) (fs : gmap (list string) Fs.Node) (path : string) :
  is_ok (fst (Fs.mkdir cwd fs path true)) = mkdir_ok (Path.resolve_segs cwd path) fs
  /\ (mkdir_ok (Path.resolve_segs cwd path) fs = true ->
      snd (Fs.mkdir cwd fs path true) = Fs.make_dirs fs (Path.resolve_segs cwd path)).
Proof.
  unfold Fs.mkdir, mkdir_ok.
  destruct (existsb _ _); cbn; split; try reflexivity. discriminate.
Qed.


(** The three ways a write ends. *)
Lemma writeFile_cases (cwd : string) (fs : gmap (list string) Fs.Node)
    (path data : string) :
  let P := Path.resolve_segs cwd path in
  snd (Fs.writeFile cwd fs path data) = fs
  \/ (P <> [] /\ exists r d, Fs.node fs P = Some (Fs.File r true d)
                 /\ snd (Fs.writeFile cwd fs path data) = <[P := Fs.File r true data]> fs)
  \/ (P <> [] /\ Fs.node fs P = None /\ Fs.is_dir fs (Fs.parent P) = true
      /\ snd (Fs.writeFile cwd fs path data) = <[P := Fs.File true true data]> fs).
Proof.
  cbv zeta. unfold Fs.writeFile.
  destruct (Path.resolve_segs cwd path) as [|x P] eqn:E; [left; reflexivity|].
  destruct (Fs.node fs (x :: P)) as [[r w d|]|] eqn:Hn.
  - destruct w; [|left; reflexivity].
    right. left. split; [discriminate|]. eauto.
  - left. reflexivity.
  - destruct (Fs.is_dir fs (Fs.parent (x :: P))) eqn:Hd; [|left; reflexivity].
    right. right. split; [discriminate|]. auto.
Qed.

End FsFacts.

(** ** What a conversion can change for a later one *)

Section LaterFacts.

Variables (D F : list string).

Lemma is_dir_make_dirs (fs : gmap (list string) Fs.Node) (p : list string) :
  Fs.is_dir (Fs.make_dirs fs D) p = true <-> p ∈ Fs.prefixes D \/ Fs.is_dir fs p = true.
Proof.
  unfold Fs.is_dir. rewrite FsFacts.node_make_dirs.
  destruct (decide (p ∈ Fs.prefixes D)) as [H|H]; [tauto|].
  split; [auto|]. intros [?|?]; [contradiction|assumption].
Qed.

Lemma mkdir_ok_spec (fs : gmap (list string) Fs.Node) :
  mkdir_ok D fs = true <-> forall q, q ∈ Fs.prefixes D -> Fs.is_file fs q = false.
Proof.
  unfold mkdir_ok. rewrite negb_true_iff. split.
  - intros H q Hq. apply not_true_is_false. intros Hf.
    assert (existsb (Fs.is_file fs) (Fs.prefixes D) = true) as He; [|congruence].
    apply existsb_exists. exists q. split; [apply list_elem_of_In, Hq|exact Hf].
  - intros H. apply not_true_is_false. intros He.
    apply existsb_exists in He as (q & Hq & Hf).
    rewrite (H q (proj2 (list_elem_of_In _ _) Hq)) in Hf. discriminate.
Qed.







End LaterFacts.

(** ** The script, step by step *)

(** Closed equations between results of running the definitions. *)
Ltac by_computation :=
  match goal with
  | |- _ = ?y => vm_cast_no_check (@eq_refl _ y)
  end.

(** Projections of an updated process state. *)
Ltac world_simpl :=
  cbn [w_cwd w_fs w_dom w_ticks w_console w_calls
       called ticked with_fs with_dom printed fst snd].

Ltac world_simpl_in H :=
  cbn [w_cwd w_fs w_dom w_ticks w_console w_calls
       called ticked with_fs with_dom printed fst snd] in H.

Section ScriptFacts.

Context {Dom : Type} (L : Libs Dom) (cfg : Config).


(** [renderOne] with its sequencing written out: one branch per step that
    can throw. *)
Lemma renderOne_unfold (f : string) (w : World Dom) :
  renderOne L cfg f w =
    let rd := Fs.readFile (w_cwd w) (w_fs w) f in
    let w1 := called (CallReadFile f) rd w in
    match rd with
    | Throw e => (Throw e, w1)
    | Ok code =>
        let now := lib_now L (w_ticks w) in
        let w2 := ticked (called CallNow (Ok now) w1) in
        let id := diagramId f now in
        let rn := lib_render L (MERMAID_THEME cfg) (w_dom w) id code in
        let w3 := with_dom (snd rn) (called (CallRender id code) (fst rn) w2) in
        match fst rn with
        | Throw e => (Throw e, w3)
        | Ok svg =>
            let rs := lib_resvg L svg in
            let w4 := called (CallResvg svg) rs w3 in
            match rs with
            | Throw e => (Throw e, w4)
            | Ok png =>
                let outDir := Path.resolve (w_cwd w) (OUTPUT_DIR cfg) in
                let mk := Fs.mkdir (w_cwd w) (w_fs w) outDir true in
                let w5 := with_fs (snd mk) (called (CallMkdir outDir true) (fst mk) w4) in
                match fst mk with
                | Throw e => (Throw e, w5)
                | Ok _ =>
                    let outPath := Path.join outDir (outName f) in
                    let wr := Fs.writeFile (w_cwd w) (snd mk) outPath png in
                    let w6 := with_fs (snd wr)
                                (called (CallWriteFile outPath png) (fst wr) w5) in
                    match fst wr with
                    | Throw e => (Throw e, w6)
                    | Ok _ => (Ok outPath, w6)
                    end
                end
            end
        end
    end.
Proof.
  unfold renderOne, bind, fs_readFile, Date_now, mermaid_render, resvg_png,
    path_resolve, ensureDir, fs_mkdir, fs_writeFile, ret.
  destruct (Fs.readFile (w_cwd w) (w_fs w) f) as [code|e]; [|reflexivity].
  world_simpl.
  destruct (lib_render L (MERMAID_THEME cfg) (w_dom w) _ code) as [[svg|e] d];
    [|reflexivity].
  world_simpl.
  destruct (lib_resvg L svg) as [png|e]; [|reflexivity].
  world_simpl.
  destruct (Fs.mkdir (w_cwd w) (w_fs w) (Path.resolve (w_cwd w) (OUTPUT_DIR cfg)) true)
    as [[[]|e] fs1]; [|reflexivity].
  world_simpl.
  match goal with
  | |- context [Fs.writeFile ?a ?b ?c ?d] => destruct (Fs.writeFile a b c d) as [[[]|e] fs2]
  end; reflexivity.
Qed.


(** What one conversion leaves behind: the working directory and the
    console as they were, the calls of one of the five shapes appended, and
    the file system as it was unless the output directory was created. *)
Lemma renderOne_effect (f : string) (w : World Dom) :
  let r := renderOne L cfg f w in
  w_cwd (snd r) = w_cwd w
  /\ w_console (snd r) = w_console w
  /\ exists cs,
       w_calls (snd r) = (w_calls w ++ cs)%list
       /\ conversion_calls f (Path.resolve (w_cwd w) (OUTPUT_DIR cfg)) (is_ok (fst r)) cs
       /\ ((forall p rec, ~ In (CallMkdir p rec, true) cs) -> w_fs (snd r) = w_fs w).
Proof.
  cbv zeta. rewrite renderOne_unfold. cbv zeta.
  destruct (Fs.readFile (w_cwd w) (w_fs w) f) as [code|e].
  2:{ world_simpl. repeat split. eexists. split; [reflexivity|].
      split; [constructor|reflexivity]. }
  destruct (lib_render L (MERMAID_THEME cfg) (w_dom w)
              (diagramId f (lib_now L (w_ticks w))) code) as [[svg|e] d].
  2:{ world_simpl. repeat split. eexists. split; [rewrite <- !app_assoc; reflexivity|].
      split; [constructor|reflexivity]. }
  world_simpl. destruct (lib_resvg L svg) as [png|e].
  2:{ world_simpl. repeat split. eexists. split; [rewrite <- !app_assoc; reflexivity|].
      split; [constructor|reflexivity]. }
  destruct (Fs.mkdir (w_cwd w) (w_fs w) (Path.resolve (w_cwd w) (OUTPUT_DIR cfg)) true)
    as [[[]|e] fs1] eqn:Hmk.
  2:{ world_simpl. repeat split. eexists. split; [rewrite <- !app_assoc; reflexivity|].
      split; [constructor|]. intros _.
      pose proof (FsFacts.mkdir_throw_unchanged (w_cwd w) (w_fs w)
                    (Path.resolve (w_cwd w) (OUTPUT_DIR cfg)) true) as Hun.
      rewrite Hmk in Hun. apply Hun. reflexivity. }
  world_simpl.
  match goal with
  | |- context [Fs.writeFile ?a ?b ?c ?d] => destruct (Fs.writeFile a b c d) as [[[]|e] fs2]
  end; world_simpl; repeat split; eexists;
    (split; [rewrite <- !app_assoc; reflexivity|]);
    (split; [constructor|]); intros Hno; exfalso; eapply Hno; cbn; eauto 10.
Qed.

(** In a conversion, the output directory is created only when the image
    is about to be written. *)
Lemma conversion_mkdir_then_write (f outDir : string) (b : bool)
    (cs : list (Call * bool)) :
  conversion_calls f outDir b cs ->
  (forall p d b', ~ In (CallWriteFile p d, b') cs) ->
  forall p rec, ~ In (CallMkdir p rec, true) cs.
Proof.
  intros Hc Hno p rec Hin.
  destruct Hc; cbn in Hin;
    repeat (destruct Hin as [Hin|Hin]; [try discriminate|]); try contradiction.
  eapply Hno. cbn. eauto 10.
Qed.

(** The [catch] branch of the loop body. *)
Lemma loop_body_throw (f : string) (t : Tally) (w w' : World Dom) (e : JsError) :
  renderOne L cfg f w = (Throw e, w') ->
  loop_body L cfg f t w =
    (Ok {| ok := ok t; fail := S (fail t) |}, printed Stderr (failure_line f e) w').
Proof.
  intros H. unfold loop_body, try_catch, bind. rewrite H. reflexivity.
Qed.

(** The [try] branch run to its end. *)
Lemma loop_body_ok (f out : string) (t : Tally) (w w' : World Dom) :
  renderOne L cfg f w = (Ok out, w') ->
  loop_body L cfg f t w =
    (Ok {| ok := S (ok t); fail := fail t |},
     printed Stdout
       (success_line (Path.relative (w_cwd w') (w_cwd w') f)
          (Path.relative (w_cwd w') (w_cwd w') out)) w').
Proof.
  intros H. unfold loop_body, try_catch, bind. rewrite H. reflexivity.
Qed.

(** The loop body never throws, and counts the file once. *)
Lemma loop_body_total (f : string) (t : Tally) (w : World Dom) :
  exists t' w',
    loop_body L cfg f t w = (Ok t', w')
    /\ (ok t' + fail t' = S (ok t + fail t))%nat.
Proof.
  destruct (renderOne L cfg f w) as [[out|e] w'] eqn:H.
  - rewrite (loop_body_ok _ _ t _ _ H). eexists _, _. split; [reflexivity|]. cbn. lia.
  - rewrite (loop_body_throw _ t _ _ _ H). eexists _, _. split; [reflexivity|]. cbn. lia.
Qed.

Lemma for_of_cons (f : string) (rest : list string) (t t' : Tally) (w w' : World Dom) :
  loop_body L cfg f t w = (Ok t', w') ->
  for_of L cfg (f :: rest) t w = for_of L cfg rest t' w'.
Proof. intros H. cbn [for_of]. unfold bind. rewrite H. reflexivity. Qed.

(** The loop runs to the end of the list, whatever happens to each file,
    and every file is counted once. *)
Lemma for_of_total (files : list string) (t : Tally) (w : World Dom) :
  exists t' w',
    for_of L cfg files t w = (Ok t', w')
    /\ (ok t' + fail t' = ok t + fail t + length files)%nat.
Proof.
  revert t w. induction files as [|f rest IH]; intros t w.
  - exists t, w. split; [reflexivity|]. cbn. lia.
  - destruct (loop_body_total f t w) as (t1 & w1 & Hb & Hc).
    destruct (IH t1 w1) as (t2 & w2 & Hr & Hc2).
    exists t2, w2. split.
    + rewrite (for_of_cons _ _ _ _ _ _ Hb). exact Hr.
    + cbn [length]. lia.
Qed.

(** Processing a list is processing its first part and then the rest, from
    the state and the counters the first part leaves. *)
Lemma for_of_app (pre post : list string) (t t1 : Tally) (w w1 : World Dom) :
  for_of L cfg pre t w = (Ok t1, w1) ->
  for_of L cfg (pre ++ post) t w = for_of L cfg post t1 w1.
Proof.
  revert t w. induction pre as [|f pre IH]; intros t w H.
  - cbn in H. unfold ret in H. injection H as -> ->. reflexivity.
  - destruct (loop_body_total f t w) as (t' & w' & Hb & _).
    rewrite (for_of_cons _ _ _ _ _ _ Hb) in H.
    change ((f :: pre) ++ post)%list with (f :: (pre ++ post))%list.
    rewrite (for_of_cons _ _ _ _ _ _ Hb). apply IH, H.
Qed.

(** [main] when the locator returns no file. *)
Lemma main_no_match (w : World Dom) :
  lib_fg L [INPUT_PATTERN cfg] fg_options (w_cwd w) (w_fs w) = Ok [] ->
  main L cfg w =
    (Ok {| ok := 0; fail := 0 |},
     printed Stdout ("No Mermaid files matched pattern: " +:+ INPUT_PATTERN cfg)
       (called (CallGlob [INPUT_PATTERN cfg] fg_options) (Ok (@nil string)) w)).
Proof.
  intros H. unfold main, bind, fg. rewrite H. reflexivity.
Qed.

(** [main] when the locator returns files. *)
Lemma main_some_match (w : World Dom) (files : list string) :
  lib_fg L [INPUT_PATTERN cfg] fg_options (w_cwd w) (w_fs w) = Ok files ->
  files <> [] ->
  exists t w',
    for_of L cfg files {| ok := 0; fail := 0 |}
      (printed Stdout
         ("Rendering " +:+ nat_to_string (length files)
          +:+ " Mermaid file(s) to PNG (no browser)...")
         (called (CallGlob [INPUT_PATTERN cfg] fg_options) (Ok files) w))
    = (Ok t, w')
    /\ main L cfg w = (Ok t, printed Stdout (summary_line t) w').
Proof.
  intros H Hne. unfold main, bind, fg. rewrite H.
  destruct files as [|f rest]; [congruence|].
  change (length (f :: rest) =? 0)%nat with false. cbv iota.
  unfold console_log at 1.
  match goal with
  | |- context [for_of L cfg ?fs ?t ?w0] =>
      destruct (for_of_total fs t w0) as (t' & w' & Hf & _)
  end.
  exists t', w'. split; [exact Hf|]. rewrite Hf. reflexivity.
Qed.

(** [main] throws only when the locator does. *)
Lemma main_ok (w : World Dom) (files : list string) :
  lib_fg L [INPUT_PATTERN cfg] fg_options (w_cwd w) (w_fs w) = Ok files ->
  exists t w', main L cfg w = (Ok t, w').
Proof.
  intros H. destruct files as [|f rest].
  - rewrite (main_no_match w H). eauto.
  - destruct (main_some_match w (f :: rest) H) as (t & w' & _ & Hm); [congruence|].
    rewrite Hm. eauto.
Qed.

Lemma exit_status_ok (w : World Dom) (files : list string) :
  lib_fg L [INPUT_PATTERN cfg] fg_options (w_cwd w) (w_fs w) = Ok files ->
  exit_status L cfg w = 0%Z.
Proof.
  intros H. destruct (main_ok w files H) as (t & w' & Hm).
  unfold exit_status, run. rewrite Hm. reflexivity.
Qed.


(** C1: an error thrown anywhere in a file's read, render, rasterize and
    write sequence is caught by the loop body, which prints the failure
    line with the file path and the error detail and adds one to the
    failure count; the loop then goes on with the next file, and when the
    locator returned, the process exits with status 0 whatever happened to
    the files. *)
Theorem per_file_errors_are_caught_and_counted :
  (forall f t w e w',
      renderOne L cfg f w = (Throw e, w') ->
      loop_body L cfg f t w =
        (Ok {| ok := ok t; fail := S (fail t) |},
         printed Stderr ("✗ Failed: " +:+ f +:+ String "010" (err_detail e)) w'))
  /\ (forall pre f post t w t1 w1,
         for_of L cfg pre t w = (Ok t1, w1) ->
         exists t2 w2,
           loop_body L cfg f t1 w1 = (Ok t2, w2)
           /\ for_of L cfg (pre ++ f :: post) t w = for_of L cfg post t2 w2)
  /\ (forall w files,
         lib_fg L [INPUT_PATTERN cfg] fg_options (w_cwd w) (w_fs w) = Ok files ->
         exit_status L cfg w = 0%Z).
Proof.
  split; [|split].
  - intros f t w e w' H. apply loop_body_throw, H.
  - intros pre f post t w t1 w1 Hpre.
    destruct (loop_body_total f t1 w1) as (t2 & w2 & Hb & _).
    exists t2, w2. split; [exact Hb|].
    rewrite (for_of_app pre (f :: post) _ _ _ _ Hpre).
    apply for_of_cons, Hb.
  - intros w files H. apply (exit_status_ok w files H).
Qed.

(** C2, as the script has it: a failure to create the output directory
    happens inside [renderOne], so the loop body catches it like any other
    error of the file: the failure line is printed, the failure count goes
    up by one, and the exit status stays 0. *)
Theorem mkdir_failure_is_a_per_file_failure :
  (forall f t w code svg png e,
      Fs.readFile (w_cwd w) (w_fs w) f = Ok code ->
      fst (lib_render L (MERMAID_THEME cfg) (w_dom w)
             (diagramId f (lib_now L (w_ticks w))) code) = Ok svg ->
      lib_resvg L svg = Ok png ->
      fst (Fs.mkdir (w_cwd w) (w_fs w) (Path.resolve (w_cwd w) (OUTPUT_DIR cfg)) true)
        = Throw e ->
      exists w',
        loop_body L cfg f t w = (Ok {| ok := ok t; fail := S (fail t) |}, w')
        /\ last (w_console w') = Some (Stderr, failure_line f e)
        /\ last (w_calls w')
           = Some (CallMkdir (Path.resolve (w_cwd w) (OUTPUT_DIR cfg)) true, false))
  /\ (forall w files,
         lib_fg L [INPUT_PATTERN cfg] fg_options (w_cwd w) (w_fs w) = Ok files ->
         fst (run L cfg w) = 0%Z).
Proof.
  split.
  - intros f t w code svg png e Hrd Hrn Hrs Hmk.
    pose proof (renderOne_unfold f w) as Hu. cbv zeta in Hu.
    rewrite Hrd, Hrn, Hrs, Hmk in Hu.
    eexists. split; [apply loop_body_throw, Hu|].
    world_simpl. split; apply last_snoc.
  - intros w files H. apply (exit_status_ok w files H).
Qed.

(** C5: when the locator returns no file, the script prints the one
    informational line, makes no call besides the locator's (so nothing is
    written and no directory is created), and the process exits with
    status 0. *)
Theorem no_match_is_not_an_error (w : World Dom) :
  lib_fg L [INPUT_PATTERN cfg] fg_options (w_cwd w) (w_fs w) = Ok [] ->
  exit_status L cfg w = 0%Z
  /\ w_console (snd (run L cfg w))
     = (w_console w
        ++ [(Stdout, "No Mermaid files matched pattern: " +:+ INPUT_PATTERN cfg)])%list
  /\ calls_since w (snd (run L cfg w))
     = [(CallGlob [INPUT_PATTERN cfg] fg_options, true)]
  /\ w_fs (snd (run L cfg w)) = w_fs w.
Proof.
  intros H. unfold exit_status, run. rewrite (main_no_match w H).
  world_simpl. repeat split.
  unfold calls_since. world_simpl. apply drop_app_length.
Qed.

(** C7: every file adds one to exactly one of the two counters, so after
    the loop their sum is the number of matched files, and the last line
    printed is the summary with both counts. *)
Theorem tally_counts_every_file :
  (forall f t w,
      exists t' w',
        loop_body L cfg f t w = (Ok t', w')
        /\ ((ok t' = S (ok t) /\ fail t' = fail t)
            \/ (ok t' = ok t /\ fail t' = S (fail t))))
  /\ (forall w files,
         lib_fg L [INPUT_PATTERN cfg] fg_options (w_cwd w) (w_fs w) = Ok files ->
         files <> [] ->
         exists t w',
           main L cfg w = (Ok t, w')
           /\ (ok t + fail t = length files)%nat
           /\ last (w_console w')
              = Some (Stdout,
                      "Done. Success: " +:+ nat_to_string (ok t)
                      +:+ ", Failed: " +:+ nat_to_string (fail t))).
Proof.
  split.
  - intros f t w.
    destruct (renderOne L cfg f w) as [[out|e] w'] eqn:H.
    + rewrite (loop_body_ok _ _ t _ _ H). eexists _, _.
      split; [reflexivity|]. left. split; reflexivity.
    + rewrite (loop_body_throw _ t _ _ _ H). eexists _, _.
      split; [reflexivity|]. right. split; reflexivity.
  - intros w files H Hne.
    destruct (main_some_match w files H Hne) as (t & w' & Hf & Hm).
    exists t, (printed Stdout (summary_line t) w').
    split; [exact Hm|]. split.
    + destruct (for_of_total files {| ok := 0; fail := 0 |}
                  (printed Stdout
                     ("Rendering " +:+ nat_to_string (length files)
                      +:+ " Mermaid file(s) to PNG (no browser)...")
                     (called (CallGlob [INPUT_PATTERN cfg] fg_options) (Ok files) w)))
        as (t2 & w2 & Hf2 & Hc).
      rewrite Hf in Hf2. injection Hf2 as <- <-. cbn in Hc. lia.
    + world_simpl. apply last_snoc.
Qed.

(** The loop body adds the calls of one conversion and nothing else. *)
Lemma loop_body_effect (f : string) (t : Tally) (w : World Dom) :
  let r := loop_body L cfg f t w in
  w_cwd (snd r) = w_cwd w
  /\ w_fs (snd r) = w_fs (snd (renderOne L cfg f w))
  /\ w_calls (snd r) = w_calls (snd (renderOne L cfg f w)).
Proof.
  cbv zeta. destruct (renderOne_effect f w) as (Hcwd & _ & _).
  destruct (renderOne L cfg f w) as [[out|e] w'] eqn:H.
  - rewrite (loop_body_ok _ _ t _ _ H). world_simpl. cbn in Hcwd. auto.
  - rewrite (loop_body_throw _ t _ _ _ H). world_simpl. cbn in Hcwd. auto.
Qed.

(** Over the whole loop: the working directory stays, calls are only
    added, and the file system changes only if some image was handed to
    [writeFile]. *)
Lemma for_of_effect (files : list string) (t : Tally) (w : World Dom) :
  let r := for_of L cfg files t w in
  w_cwd (snd r) = w_cwd w
  /\ exists cs,
       w_calls (snd r) = (w_calls w ++ cs)%list
       /\ ((forall p d b, ~ In (CallWriteFile p d, b) cs) -> w_fs (snd r) = w_fs w).
Proof.
  cbv zeta. revert t w. induction files as [|f rest IH]; intros t w.
  - cbn. split; [reflexivity|]. exists []. rewrite app_nil_r. auto.
  - destruct (loop_body_total f t w) as (t1 & w1 & Hb & _).
    rewrite (for_of_cons _ _ _ _ _ _ Hb).
    destruct (loop_body_effect f t w) as (Hcwd & Hfs & Hcalls).
    rewrite Hb in Hcwd, Hfs, Hcalls. cbn [snd] in Hcwd, Hfs, Hcalls.
    destruct (renderOne_effect f w) as (_ & _ & cs1 & Hc1 & Hshape & Hfs1).
    destruct (IH t1 w1) as (Hcwd2 & cs2 & Hc2 & Hfs2).
    split; [congruence|].
    exists (cs1 ++ cs2)%list. split.
    + rewrite Hc2, Hcalls, Hc1. apply eq_sym, app_assoc.
    + intros Hno. rewrite Hfs2.
      * rewrite Hfs. apply Hfs1.
        apply (conversion_mkdir_then_write _ _ _ _ Hshape).
        intros p d b Hin. apply (Hno p d b). apply in_or_app. left. exact Hin.
      * intros p d b Hin. apply (Hno p d b). apply in_or_app. right. exact Hin.
Qed.

Lemma calls_since_app (w w' : World Dom) (cs : list (Call * bool)) :
  w_calls w' = (w_calls w ++ cs)%list -> calls_since w w' = cs.
Proof. intros H. unfold calls_since. rewrite H. apply drop_app_length. Qed.

(** C6: when the read, the render or the rasterization of a file throws,
    the conversion makes no call that changes the file system and leaves it
    as it was; the loop counts the failure and goes on with the remaining
    files from that unchanged file system; and a conversion that returns
    has stored its image at the path it returns. *)
Theorem failed_conversion_writes_nothing :
  (forall f w,
      (exists c, is_conversion_step c = true
                 /\ In (c, false) (calls_since w (snd (renderOne L cfg f w)))) ->
      is_ok (fst (renderOne L cfg f w)) = false
      /\ w_fs (snd (renderOne L cfg f w)) = w_fs w
      /\ forall c b, In (c, b) (calls_since w (snd (renderOne L cfg f w))) ->
                     touches_disk c = false)
  /\ (forall pre f post t w t1 w1,
         for_of L cfg pre t w = (Ok t1, w1) ->
         (exists c, is_conversion_step c = true
                    /\ In (c, false) (calls_since w1 (snd (renderOne L cfg f w1)))) ->
         exists w2,
           loop_body L cfg f t1 w1 = (Ok {| ok := ok t1; fail := S (fail t1) |}, w2)
           /\ w_fs w2 = w_fs w1
           /\ for_of L cfg (pre ++ f :: post) t w
              = for_of L cfg post {| ok := ok t1; fail := S (fail t1) |} w2)
  /\ (forall g w out,
         fst (renderOne L cfg g w) = Ok out ->
         exists png,
           In (CallWriteFile out png, true) (calls_since w (snd (renderOne L cfg g w)))
           /\ Fs.data_at (w_fs (snd (renderOne L cfg g w)))
                (Path.resolve_segs (w_cwd w) out) = Some png).
Proof.
  assert (Hone : forall f w,
             (exists c, is_conversion_step c = true
                        /\ In (c, false) (calls_since w (snd (renderOne L cfg f w)))) ->
             is_ok (fst (renderOne L cfg f w)) = false
             /\ w_fs (snd (renderOne L cfg f w)) = w_fs w
             /\ forall c b, In (c, b) (calls_since w (snd (renderOne L cfg f w))) ->
                            touches_disk c = false).
  { intros f w (c & Hstep & Hin).
    destruct (renderOne_effect f w) as (_ & _ & cs & Hcs & Hshape & Hfs).
    rewrite (calls_since_app _ _ _ Hcs) in *.
    destruct Hshape; cbn in Hin;
      repeat (destruct Hin as [Hin|Hin];
              [injection Hin as <-; try discriminate|]); try contradiction.
    all: split; [reflexivity|]; split.
    all: try (apply Hfs; intros p rec H; cbn in H;
              repeat (destruct H as [H|H]; [discriminate|]); exact H).
    all: intros c' b' H; cbn in H;
      repeat (destruct H as [H|H]; [injection H as <- <-; reflexivity|]);
      contradiction. }
  split; [exact Hone|split].
  - intros pre f post t w t1 w1 Hpre Hfail.
    destruct (Hone f w1 Hfail) as (Hthrow & Hfs & _).
    destruct (renderOne L cfg f w1) as [[out|e] w2] eqn:Hr; [discriminate|].
    pose proof (loop_body_throw f t1 w1 w2 e Hr) as Hb.
    eexists. split; [exact Hb|]. split; [exact Hfs|].
    rewrite (for_of_app pre (f :: post) _ _ _ _ Hpre).
    apply for_of_cons, Hb.
  - intros g w out Hok.
    rewrite renderOne_unfold in *. cbv zeta in *.
    destruct (Fs.readFile (w_cwd w) (w_fs w) g) as [code|e]; [|discriminate].
    destruct (lib_render L (MERMAID_THEME cfg) (w_dom w)
                (diagramId g (lib_now L (w_ticks w))) code) as [[svg|e] d];
      [|discriminate].
    cbn [fst snd] in *. destruct (lib_resvg L svg) as [png|e]; [|discriminate].
    destruct (Fs.mkdir (w_cwd w) (w_fs w) (Path.resolve (w_cwd w) (OUTPUT_DIR cfg)) true)
      as [[[]|e] fs1]; [|discriminate].
    cbn [fst snd] in *.
    pose proof (FsFacts.writeFile_ok_data (w_cwd w) fs1
                  (Path.join (Path.resolve (w_cwd w) (OUTPUT_DIR cfg)) (outName g)) png)
      as Hdata.
    destruct (Fs.writeFile (w_cwd w) fs1
                (Path.join (Path.resolve (w_cwd w) (OUTPUT_DIR cfg)) (outName g)) png)
      as [[[]|e] fs2]; [|discriminate].
    injection Hok as <-. exists png. world_simpl. split.
    + unfold calls_since. world_simpl. rewrite <- !app_assoc.
      rewrite drop_app_length. cbn. auto 10.
    + apply Hdata. reflexivity.
Qed.

(** [ensureDir] on a directory that exists. *)
Lemma ensureDir_existing (p : string) (w : World Dom) :
  Fs.dir_exists (w_fs w) (Path.resolve_segs (w_cwd w) p) = true ->
  ensureDir p w = (Ok tt, called (CallMkdir p true) (Ok tt) w).
Proof.
  intros H. unfold ensureDir, fs_mkdir, Fs.mkdir.
  rewrite (FsFacts.dir_exists_no_file _ _ H), (FsFacts.make_dirs_existing _ _ H).
  destruct w. reflexivity.
Qed.

(** C10: [mkdir] is called, with [recursive], only as the fifth call of a
    conversion, after the render and the rasterization returned, and when it
    returns the next call is that file's write; so a run in which no image is
    handed to [writeFile] leaves the file system, and with it the set of
    directories, as it was; and on a directory that exists the call returns
    and changes nothing. *)
Theorem output_directory_is_created_lazily :
  (forall f w p rec b,
      In (CallMkdir p rec, b) (calls_since w (snd (renderOne L cfg f w))) ->
      rec = true
      /\ p = Path.resolve (w_cwd w) (OUTPUT_DIR cfg)
      /\ exists id code svg png,
           calls_since w (snd (renderOne L cfg f w))
           = ([(CallReadFile f, true); (CallNow, true); (CallRender id code, true);
               (CallResvg svg, true); (CallMkdir p true, b)]
              ++ (if b
                  then [(CallWriteFile (Path.join p (outName f)) png,
                         is_ok (fst (renderOne L cfg f w)))]
                  else []))%list)
  /\ (forall w files,
         lib_fg L [INPUT_PATTERN cfg] fg_options (w_cwd w) (w_fs w) = Ok files ->
         existsb (fun cb => is_write (fst cb)) (calls_since w (snd (run L cfg w))) = false ->
         w_fs (snd (run L cfg w)) = w_fs w)
  /\ (forall (w : World Dom) p,
         Fs.dir_exists (w_fs w) (Path.resolve_segs (w_cwd w) p) = true ->
         fst (ensureDir p w) = Ok tt /\ w_fs (snd (ensureDir p w)) = w_fs w).
Proof.
  split; [|split].
  - intros f w p rec b Hin.
    destruct (renderOne_effect f w) as (_ & _ & cs & Hcs & Hshape & _).
    rewrite (calls_since_app _ _ _ Hcs) in *.
    destruct Hshape; cbn in Hin;
      repeat (destruct Hin as [Hin|Hin]; [try discriminate|]); try contradiction.
    + injection Hin as <- <- <-. repeat split. exists id, code, svg, "". reflexivity.
    + injection Hin as <- <- <-. repeat split. exists id, code, svg, png. reflexivity.
  - intros w files Hfg Hnob.
    assert (Hno : forall p d b,
               ~ In (CallWriteFile p d, b) (calls_since w (snd (run L cfg w)))).
    { intros p d b Hin.
      assert (existsb (fun cb => is_write (fst cb))
                (calls_since w (snd (run L cfg w))) = true) as Ht; [|congruence].
      apply existsb_exists. eexists. split; [exact Hin|reflexivity]. }
    clear Hnob. revert Hno. unfold run.
    destruct files as [|f rest].
    + rewrite (main_no_match w Hfg). reflexivity.
    + destruct (main_some_match w (f :: rest) Hfg) as (t & w' & Hfor & Hmain);
        [discriminate|].
      rewrite Hmain. world_simpl. intros Hno.
      match type of Hfor with
      | for_of L cfg ?fs ?t0 ?w0 = _ =>
          destruct (for_of_effect fs t0 w0) as (_ & cs & Hcs & Hfs)
      end.
      rewrite Hfor in Hcs, Hfs. world_simpl_in Hcs. world_simpl_in Hfs.
      apply Hfs. intros p d b Hin. apply (Hno p d b).
      unfold calls_since. world_simpl. rewrite Hcs, <- app_assoc.
      rewrite drop_app_length. right. exact Hin.
  - intros w p H. rewrite (ensureDir_existing p w H). split; reflexivity.
Qed.

End ScriptFacts.

(** ** Runs of the script in concrete processes *)

(** C1, on a tree where every matched source fails to render: both files are
    caught and counted, and the exit status is 0. *)
Lemma per_file_errors_witness :
  loop_body (Demo.libs Demo.steady_clock) Demo.default_cfg "/w/diagrams/b.mmd"
    {| ok := 0; fail := 0 |} (Demo.world "/w" Demo.fs_all_broken)
  = (Ok {| ok := 0; fail := 1 |},
     printed Stderr
       ("✗ Failed: /w/diagrams/b.mmd" +:+ String "010"
        "UnknownDiagramError: No diagram type detected")
       (snd (renderOne (Demo.libs Demo.steady_clock) Demo.default_cfg "/w/diagrams/b.mmd"
               (Demo.world "/w" Demo.fs_all_broken))))
  /\ (exists t2 w2,
         loop_body (Demo.libs Demo.steady_clock) Demo.default_cfg "/w/diagrams/c.mmd"
           {| ok := 0; fail := 0 |} (Demo.world "/w" Demo.fs_all_broken) = (Ok t2, w2)
         /\ for_of (Demo.libs Demo.steady_clock) Demo.default_cfg
              ([] ++ "/w/diagrams/c.mmd" :: ["/w/diagrams/b.mmd"])
              {| ok := 0; fail := 0 |} (Demo.world "/w" Demo.fs_all_broken)
            = for_of (Demo.libs Demo.steady_clock) Demo.default_cfg
                ["/w/diagrams/b.mmd"] t2 w2)
  /\ exit_status (Demo.libs Demo.steady_clock) Demo.default_cfg
       (Demo.world "/w" Demo.fs_all_broken) = 0%Z.
Proof.
  destruct (per_file_errors_are_caught_and_counted
              (Demo.libs Demo.steady_clock) Demo.default_cfg) as (Hcatch & Hnext & Hexit).
  split; [|split].
  - apply (Hcatch "/w/diagrams/b.mmd" {| ok := 0; fail := 0 |}
             (Demo.world "/w" Demo.fs_all_broken)
             (error_of "UnknownDiagramError: No diagram type detected")).
    by_computation.
  - apply (Hnext [] "/w/diagrams/c.mmd" ["/w/diagrams/b.mmd"]). reflexivity.
  - apply (Hexit _ ["/w/diagrams/c.mmd"; "/w/diagrams/b.mmd"]).
    by_computation.
Defined.

(** C2 as stated fails: with [OUTPUT_DIR=out] and a regular file [out] in
    the working directory, creating the output directory fails for the one
    matched file, the failure is printed as that file's, and the process
    exits with status 0. *)
Lemma mkdir_failure_counterexample :
  let r := run (Demo.libs Demo.steady_clock) Demo.cfg_out
             (Demo.world "/w" Demo.fs_out_is_file) in
  In (CallMkdir "/w/out" true, false) (w_calls (snd r))
  /\ In (Stderr, "✗ Failed: /w/diagrams/a.mmd" +:+ String "010"
                 "Error: EEXIST: mkdir '/w/out'") (w_console (snd r))
  /\ fst r = 0%Z.
Proof.
  vm_compute. repeat split; auto 10.
Qed.

Lemma mkdir_failure_witness :
  (exists w',
      loop_body (Demo.libs Demo.steady_clock) Demo.cfg_out "/w/diagrams/a.mmd"
        {| ok := 0; fail := 0 |} (Demo.world "/w" Demo.fs_out_is_file)
      = (Ok {| ok := 0; fail := 1 |}, w')
      /\ last (w_console w')
         = Some (Stderr, failure_line "/w/diagrams/a.mmd"
                           (Fs.sys_error "EEXIST" "mkdir" "/w/out"))
      /\ last (w_calls w') = Some (CallMkdir (Path.resolve "/w" "out") true, false))
  /\ fst (run (Demo.libs Demo.steady_clock) Demo.cfg_out
            (Demo.world "/w" Demo.fs_out_is_file)) = 0%Z.
Proof.
  destruct (mkdir_failure_is_a_per_file_failure
              (Demo.libs Demo.steady_clock) Demo.cfg_out) as (Hfile & Hrun).
  split.
  - apply (Hfile "/w/diagrams/a.mmd" {| ok := 0; fail := 0 |}
             (Demo.world "/w" Demo.fs_out_is_file)
             Demo.valid
             "<svg class=default>graph TD; A-->B</svg>"
             "PNG:graph TD; A-->B</svg>"
             (Fs.sys_error "EEXIST" "mkdir" "/w/out"));
      by_computation.
  - apply (Hrun _ ["/w/diagrams/a.mmd"]). by_computation.
Defined.

Lemma no_match_witness :
  exit_status (Demo.libs Demo.steady_clock) Demo.default_cfg
    (Demo.world "/w" Demo.fs_empty) = 0%Z
  /\ w_console (snd (run (Demo.libs Demo.steady_clock) Demo.default_cfg
                       (Demo.world "/w" Demo.fs_empty)))
     = [(Stdout, "No Mermaid files matched pattern: diagrams/**/*.mmd")]
  /\ calls_since (Demo.world "/w" Demo.fs_empty)
       (snd (run (Demo.libs Demo.steady_clock) Demo.default_cfg
               (Demo.world "/w" Demo.fs_empty)))
     = [(CallGlob ["diagrams/**/*.mmd"] fg_options, true)]
  /\ w_fs (snd (run (Demo.libs Demo.steady_clock) Demo.default_cfg
                  (Demo.world "/w" Demo.fs_empty))) = Demo.fs_empty.
Proof.
  apply (no_match_is_not_an_error (Demo.libs Demo.steady_clock) Demo.default_cfg
           (Demo.world "/w" Demo.fs_empty)).
  by_computation.
Defined.

(** C7, on the tree of the specification's example: one file converts and
    one fails. *)
Lemma tally_witness :
  exists t w',
    main (Demo.libs Demo.steady_clock) Demo.default_cfg (Demo.world "/w" Demo.fs1)
    = (Ok t, w')
    /\ (ok t + fail t = 2)%nat
    /\ last (w_console w')
       = Some (Stdout,
               "Done. Success: " +:+ nat_to_string (ok t)
               +:+ ", Failed: " +:+ nat_to_string (fail t)).
Proof.
  apply (proj2 (tally_counts_every_file (Demo.libs Demo.steady_clock) Demo.default_cfg)
           (Demo.world "/w" Demo.fs1) ["/w/diagrams/b.mmd"; "/w/diagrams/a.mmd"]).
  - by_computation.
  - discriminate.
Defined.

(** ** The two file-name computations *)

Module NameFacts.

Lemma append_cons (x : ascii) (a b : string) : String x a +:+ b = String x (a +:+ b).
Proof. reflexivity. Qed.

Lemma append_nil (b : string) : "" +:+ b = b.
Proof. reflexivity. Qed.

Lemma length_append (a b : string) :
  String.length (a +:+ b) = String.length a + String.length b.
Proof.
  induction a as [|c a IH]; [reflexivity|].
  rewrite append_cons. cbn [String.length]. rewrite IH. reflexivity.
Qed.

Lemma no_char_app (c : ascii) (a b : string) :
  Js.no_char c (a +:+ b) = Js.no_char c a && Js.no_char c b.
Proof.
  induction a as [|x a IH]; [reflexivity|].
  rewrite append_cons. cbn [Js.no_char]. rewrite IH. apply andb_assoc.
Qed.

(** A string is cut in one way only at its last occurrence of [c]. *)
Lemma split_at_last (c : ascii) (a b x y : string) :
  Js.no_char c x = true -> Js.no_char c y = true ->
  a +:+ String c x = b +:+ String c y ->
  a = b /\ x = y.
Proof.
  intros Hx Hy. revert b.
  induction a as [|h a IH]; intros [|k b] H;
    rewrite ?append_cons, ?append_nil in H.
  - injection H as ->. split; reflexivity.
  - injection H as <- ->.
    rewrite no_char_app in Hx. cbn [Js.no_char] in Hx. rewrite Ascii.eqb_refl in Hx.
    apply andb_true_iff in Hx as [_ Hx]. discriminate.
  - injection H as -> <-.
    rewrite no_char_app in Hy. cbn [Js.no_char] in Hy. rewrite Ascii.eqb_refl in Hy.
    apply andb_true_iff in Hy as [_ Hy]. discriminate.
  - injection H as -> H. destruct (IH b H) as [-> ->]. split; reflexivity.
Qed.

Lemma digits_no_underscore (d : Decimal.uint) :
  Js.no_char "_" (NilEmpty.string_of_uint d) = true.
Proof. induction d; cbn; auto. Qed.

Lemma num_to_string_no_underscore (z : Z) :
  Js.no_char "_" (Js.num_to_string z) = true.
Proof.
  unfold Js.num_to_string, NilZero.string_of_int, NilZero.string_of_uint.
  destruct (Z.to_int z) as [d|d]; destruct d; cbn;
    try reflexivity; apply digits_no_underscore.
Qed.

Lemma to_int_not_nil (z : Z) :
  Z.to_int z <> Decimal.Pos Decimal.Nil /\ Z.to_int z <> Decimal.Neg Decimal.Nil.
Proof.
  destruct z as [|p|p]; cbn; split; try discriminate;
    intros H; injection H as H; exact (DecimalPos.Unsigned.to_uint_nonnil p H).
Qed.

(** Two numbers with the same decimal text are equal. *)
Lemma num_to_string_inj (a b : Z) :
  Js.num_to_string a = Js.num_to_string b -> a = b.
Proof.
  unfold Js.num_to_string. intros H.
  apply DecimalZ.to_int_inj.
  destruct (to_int_not_nil a) as [Ha1 Ha2], (to_int_not_nil b) as [Hb1 Hb2].
  pose proof (NilZero.isi _ Ha1 Ha2) as Ia.
  pose proof (NilZero.isi _ Hb1 Hb2) as Ib.
  rewrite H in Ia. rewrite Ia in Ib. injection Ib as ->. reflexivity.
Qed.

Lemma lower_app (a b : string) : Js.lower (a +:+ b) = Js.lower a +:+ Js.lower b.
Proof.
  induction a as [|c a IH]; [reflexivity|].
  rewrite append_cons. cbn [Js.lower]. rewrite IH. reflexivity.
Qed.

Lemma ext_matches_here_iff (s : string) :
  Js.ext_matches_here s = true <-> In (Js.lower s) Js.source_exts.
Proof.
  unfold Js.ext_matches_here. rewrite existsb_exists. split.
  - intros (x & Hin & Heq). apply String.eqb_eq in Heq. subst x. exact Hin.
  - intros Hin. exists (Js.lower s). split; [exact Hin|apply String.eqb_refl].
Qed.

(** None of the three alternatives ends with another one: a match of the
    expression cannot start before another match. *)
Lemma exts_not_nested (c : ascii) (r e1 e2 : string) :
  In e1 Js.source_exts -> In e2 Js.source_exts -> String c (r +:+ e2) <> e1.
Proof.
  intros H1 H2 H.
  assert (Hlen : String.length e1 = S (String.length r + String.length e2)).
  { rewrite <- H. cbn [String.length]. rewrite length_append. reflexivity. }
  cbn in H1, H2.
  destruct H1 as [<-|[<-|[<-|[]]]]; destruct H2 as [<-|[<-|[<-|[]]]];
    cbn in Hlen; try lia.
  all: do 4 (destruct r as [|? r]; cbn in Hlen; try lia).
  all: rewrite !append_cons, append_nil in H; discriminate.
Qed.

(** A name that ends with one of the three extensions, in any letter
    case, gets that extension replaced. *)
Lemma replace_ext_matching (stem ext : string) :
  In (Js.lower ext) Js.source_exts ->
  Js.replace_ext (stem +:+ ext) = stem +:+ ".png".
Proof.
  intros Hext. induction stem as [|c stem IH].
  - rewrite !append_nil. destruct ext as [|x ext]; [cbn in Hext; intuition discriminate|].
    cbn [Js.replace_ext].
    rewrite (proj2 (ext_matches_here_iff (String x ext)) Hext). reflexivity.
  - rewrite !append_cons. cbn [Js.replace_ext].
    destruct (Js.ext_matches_here (String c (stem +:+ ext))) eqn:Hm.
    + apply ext_matches_here_iff in Hm. cbn [Js.lower] in Hm.
      rewrite lower_app in Hm.
      exfalso. exact (exts_not_nested _ _ _ _ Hm Hext eq_refl).
    + rewrite IH. reflexivity.
Qed.

(** A name without any of the three extensions is left as it is. *)
Lemma replace_ext_other (s : string) :
  (forall stem ext, s = stem +:+ ext -> ~ In (Js.lower ext) Js.source_exts) ->
  Js.replace_ext s = s.
Proof.
  induction s as [|c s IH]; intros H.
  - reflexivity.
  - cbn [Js.replace_ext].
    destruct (Js.ext_matches_here (String c s)) eqn:Hm.
    + apply ext_matches_here_iff in Hm. exfalso. exact (H "" (String c s) eq_refl Hm).
    + f_equal. apply IH. intros stem ext -> Hin.
      exact (H (String c stem) ext eq_refl Hin).
Qed.

Lemma take_to_slash_app (a b : list ascii) :
  forallb (fun x => negb (Ascii.eqb x "/")) a = true ->
  Path.take_to_slash (a ++ "/"%char :: b) = a.
Proof.
  induction a as [|x a IH]; cbn; intros H; [reflexivity|].
  apply andb_true_iff in H as [Hx Ha].
  destruct (Ascii.eqb x "/"); [discriminate|]. rewrite (IH Ha). reflexivity.
Qed.

Lemma drop_slashes_id (a b : list ascii) :
  a <> [] ->
  forallb (fun x => negb (Ascii.eqb x "/")) a = true ->
  Path.drop_slashes (rev a ++ b) = (rev a ++ b)%list.
Proof.
  intros Hne H.
  assert (Hr : forallb (fun x => negb (Ascii.eqb x "/")) (rev a) = true).
  { rewrite forallb_forall in *. intros x Hx. apply H, in_rev, Hx. }
  destruct (rev a) as [|x ra] eqn:E.
  - apply (f_equal (@rev ascii)) in E. rewrite rev_involutive in E. contradiction.
  - cbn in *. apply andb_true_iff in Hr as [Hx _].
    destruct (Ascii.eqb x "/"); [discriminate|reflexivity].
Qed.

Lemma list_ascii_app (a b : string) :
  list_ascii_of_string (a +:+ b) = (list_ascii_of_string a ++ list_ascii_of_string b)%list.
Proof.
  induction a as [|c a IH]; [reflexivity|].
  rewrite append_cons. cbn [list_ascii_of_string]. rewrite IH. reflexivity.
Qed.

Lemma no_char_forallb (c : ascii) (s : string) :
  Js.no_char c s = forallb (fun x => negb (Ascii.eqb x c)) (list_ascii_of_string s).
Proof. induction s as [|x s IH]; [reflexivity|]. cbn. rewrite IH. reflexivity. Qed.

(** The base name of a file in a directory is the file's name. *)
Lemma basename_in_dir (dir name : string) :
  name <> "" -> Js.no_char "/" name = true ->
  Path.basename (dir +:+ "/" +:+ name) = name.
Proof.
  intros Hne Hns. unfold Path.basename.
  rewrite list_ascii_app, append_cons, append_nil. cbn [list_ascii_of_string].
  rewrite rev_app_distr. cbn [rev]. rewrite <- app_assoc. cbn [app].
  rewrite no_char_forallb in Hns.
  assert (Hl : list_ascii_of_string name <> []).
  { destruct name; [contradiction|discriminate]. }
  rewrite (drop_slashes_id _ _ Hl Hns).
  rewrite take_to_slash_app.
  - rewrite rev_involutive. apply string_of_list_ascii_of_string.
  - rewrite forallb_forall in *. intros x Hx. apply Hns, in_rev, Hx.
Qed.

End NameFacts.

(** ** The output path (C3) and the diagram identifier (C4) *)

Section Names.

Context {Dom : Type} (L : Libs Dom) (cfg : Config).

(** C3, as the script has it: the path written is the resolved output
    directory joined with [outName] of the input; for a base name that ends
    in [.mmd], [.mermaid] or [.txt], in any letter case, [outName] is the
    base name with that extension replaced by [.png]; and [outName] depends
    on the base name alone, so files of one name in different directories
    share one output path. *)
Theorem output_path_from_basename :
  (forall f w out,
      fst (renderOne L cfg f w) = Ok out ->
      out = Path.join (Path.resolve (w_cwd w) (OUTPUT_DIR cfg)) (outName f))
  /\ (forall f stem ext,
         Path.basename f = stem +:+ ext ->
         In (Js.lower ext) [".mmd"; ".mermaid"; ".txt"] ->
         outName f = stem +:+ ".png")
  /\ (forall dir1 dir2 name,
         name <> "" -> Js.no_char "/" name = true ->
         outName (dir1 +:+ "/" +:+ name) = outName (dir2 +:+ "/" +:+ name)).
Proof.
  split; [|split].
  - intros f w out H. rewrite renderOne_unfold in H. cbv zeta in H.
    repeat match type of H with
           | fst (match ?x with _ => _ end) = _ => destruct x; try discriminate
           end.
    injection H as <-. reflexivity.
  - intros f stem ext Hb Hext. unfold outName. rewrite Hb.
    apply NameFacts.replace_ext_matching, Hext.
  - intros dir1 dir2 name Hne Hns. unfold outName.
    rewrite !NameFacts.basename_in_dir by assumption. reflexivity.
Qed.

Lemma diagramId_inj (f1 f2 : string) (t1 t2 : Z) :
  diagramId f1 t1 = diagramId f2 t2 ->
  Js.replace_nonword (Path.basename f1) = Js.replace_nonword (Path.basename f2)
  /\ t1 = t2.
Proof.
  unfold diagramId. intros H.
  change ("mmd_" +:+ ?x) with (String "m" (String "m" (String "d" (String "_" x)))) in H.
  injection H as H.
  change ("_" +:+ ?x) with (String "_" x) in H.
  apply NameFacts.split_at_last in H as [Hs Ht];
    try apply NameFacts.num_to_string_no_underscore.
  split; [exact Hs|]. apply NameFacts.num_to_string_inj, Ht.
Qed.

Lemma render_ids_app (a b : list (Call * bool)) :
  render_ids (a ++ b) = (render_ids a ++ render_ids b)%list.
Proof. apply omap_app. Qed.

(** One conversion reads the clock at most once, and hands the renderer at
    most one identifier, made from that reading. *)
Lemma renderOne_ids (f : string) (w : World Dom) :
  let w' := snd (renderOne L cfg f w) in
  (render_ids (w_calls w') = render_ids (w_calls w) /\ w_ticks w <= w_ticks w')
  \/ (render_ids (w_calls w')
      = (render_ids (w_calls w) ++ [diagramId f (lib_now L (w_ticks w))])%list
      /\ w_ticks w' = S (w_ticks w)).
Proof.
  cbv zeta. rewrite renderOne_unfold. cbv zeta.
  destruct (Fs.readFile (w_cwd w) (w_fs w) f) as [code|e].
  2:{ left. world_simpl. rewrite render_ids_app. cbn. repeat rewrite app_nil_r.
      split; [reflexivity|lia]. }
  right.
  destruct (lib_render L (MERMAID_THEME cfg) (w_dom w)
              (diagramId f (lib_now L (w_ticks w))) code) as [[svg|e] d].
  2:{ world_simpl. rewrite !render_ids_app. cbn. repeat rewrite app_nil_r.
      split; reflexivity. }
  world_simpl. destruct (lib_resvg L svg) as [png|e].
  2:{ world_simpl. rewrite !render_ids_app. cbn. repeat rewrite app_nil_r.
      split; reflexivity. }
  destruct (Fs.mkdir (w_cwd w) (w_fs w) (Path.resolve (w_cwd w) (OUTPUT_DIR cfg)) true)
    as [[[]|e] fs1].
  2:{ world_simpl. rewrite !render_ids_app. cbn. repeat rewrite app_nil_r.
      split; reflexivity. }
  world_simpl.
  match goal with
  | |- context [Fs.writeFile ?a ?b ?c ?d] => destruct (Fs.writeFile a b c d) as [[[]|e] fs2]
  end; world_simpl; rewrite !render_ids_app; cbn; repeat rewrite app_nil_r;
    split; reflexivity.
Qed.

Lemma renderOne_ids_fresh (f : string) (w : World Dom) :
  (forall n m, lib_now L n = lib_now L m -> n = m) ->
  ids_fresh L w -> ids_fresh L (snd (renderOne L cfg f w)).
Proof.
  intros Hinj [Hnd Hold]. unfold ids_fresh.
  destruct (renderOne_ids f w) as [[-> Hle]|[-> ->]].
  - split; [exact Hnd|]. intros id Hid.
    destruct (Hold id Hid) as (g & k & Hk & ->). exists g, k. split; [lia|reflexivity].
  - split.
    + apply NoDup_app. split; [exact Hnd|]. split; [|apply NoDup_singleton].
      intros id Hid Hnew. apply list_elem_of_In in Hid.
      apply list_elem_of_singleton in Hnew. subst id.
      destruct (Hold _ Hid) as (g & k & Hk & Heq).
      apply diagramId_inj in Heq as [_ Heq]. apply Hinj in Heq. lia.
    + intros id Hid. apply in_app_or in Hid as [Hid|[<-|[]]].
      * destruct (Hold id Hid) as (g & k & Hk & ->). exists g, k. split; [lia|reflexivity].
      * exists f, (w_ticks w). split; [lia|reflexivity].
Qed.

Lemma for_of_ids_fresh (files : list string) (t : Tally) (w : World Dom) :
  (forall n m, lib_now L n = lib_now L m -> n = m) ->
  ids_fresh L w -> ids_fresh L (snd (for_of L cfg files t w)).
Proof.
  intros Hinj. revert t w. induction files as [|f rest IH]; intros t w Hw.
  - exact Hw.
  - destruct (loop_body_total L cfg f t w) as (t1 & w1 & Hb & _).
    rewrite (for_of_cons L cfg _ _ _ _ _ _ Hb). apply IH.
    pose proof (renderOne_ids_fresh f w Hinj Hw) as Hf.
    destruct (renderOne L cfg f w) as [[out|e] w'] eqn:Hr.
    + rewrite (loop_body_ok L cfg _ _ t _ _ Hr) in Hb. injection Hb as _ <-. exact Hf.
    + rewrite (loop_body_throw L cfg _ t _ _ _ Hr) in Hb. injection Hb as _ <-. exact Hf.
Qed.

(** C4, as the script has it: the identifier is made of the sanitised base
    name and the clock reading, and the two can be read back from it, so two
    identifiers are equal exactly when both parts are; hence, in a process
    whose clock never gives one reading twice, the identifiers handed to the
    renderer are all distinct. *)
Theorem diagram_ids_equal_iff :
  (forall f1 f2 t1 t2,
      diagramId f1 t1 = diagramId f2 t2
      <-> Js.replace_nonword (Path.basename f1) = Js.replace_nonword (Path.basename f2)
          /\ t1 = t2)
  /\ (forall w files,
         lib_fg L [INPUT_PATTERN cfg] fg_options (w_cwd w) (w_fs w) = Ok files ->
         render_ids (w_calls w) = [] ->
         (forall n m, lib_now L n = lib_now L m -> n = m) ->
         NoDup (render_ids (w_calls (snd (run L cfg w))))).
Proof.
  split.
  - intros f1 f2 t1 t2. split; [apply diagramId_inj|].
    unfold diagramId. intros [-> ->]. reflexivity.
  - intros w files Hfg Hnone Hinj. unfold run.
    destruct files as [|f rest].
    + rewrite (main_no_match L cfg w Hfg). world_simpl.
      rewrite render_ids_app, Hnone. cbn. constructor.
    + destruct (main_some_match L cfg w (f :: rest) Hfg) as (t & w' & Hfor & Hmain);
        [discriminate|].
      rewrite Hmain. world_simpl.
      match type of Hfor with
      | for_of L cfg ?fs ?t0 ?w0 = _ =>
          pose proof (for_of_ids_fresh fs t0 w0 Hinj) as Hfresh
      end.
      rewrite Hfor in Hfresh. apply Hfresh.
      unfold ids_fresh. world_simpl. rewrite render_ids_app, Hnone. cbn.
      split; [constructor|]. intros id [].
Qed.

End Names.

Lemma output_path_witness :
  outName "/w/diagrams/sub/Flow.MMD" = "Flow" +:+ ".png"
  /\ outName ("/w/diagrams/x" +:+ "/" +:+ "a.mmd") = outName ("/w/diagrams/y" +:+ "/" +:+ "a.mmd")
  /\ "/w/diagrams/a.png"
     = Path.join (Path.resolve (w_cwd (Demo.world "/w" Demo.fs1))
                    (OUTPUT_DIR Demo.default_cfg)) (outName "/w/diagrams/a.mmd").
Proof.
  destruct (output_path_from_basename (Demo.libs Demo.steady_clock) Demo.default_cfg)
    as (Hout & Hname & Hflat).
  split; [|split].
  - apply (Hname "/w/diagrams/sub/Flow.MMD" "Flow" ".MMD").
    + reflexivity.
    + cbn. auto.
  - apply (Hflat "/w/diagrams/x" "/w/diagrams/y" "a.mmd").
    + discriminate.
    + reflexivity.
  - apply (Hout "/w/diagrams/a.mmd" (Demo.world "/w" Demo.fs1) "/w/diagrams/a.png").
    by_computation.
Defined.

(** C3 as stated fails: with [INPUT_PATTERN=notes/*.md] the matched file
    [notes/a.md] converts, and its image is written to [diagrams/a.md]: the
    extension is not one of the three the script replaces. *)
Lemma output_path_counterexample :
  let r := run (Demo.libs Demo.steady_clock) Demo.cfg_md (Demo.world "/w" Demo.fs_md) in
  In (CallReadFile "/w/notes/a.md", true) (w_calls (snd r))
  /\ In (CallWriteFile "/w/diagrams/a.md" "PNG:graph TD; A-->B</svg>", true)
       (w_calls (snd r))
  /\ ~ In (CallWriteFile "/w/diagrams/a.png" "PNG:graph TD; A-->B</svg>", true)
         (w_calls (snd r))
  /\ outName "/w/notes/a.md" = "a.md".
Proof.
  vm_compute. repeat split; auto 10.
  intros H. repeat (destruct H as [H|H]; [discriminate|]). exact H.
Qed.

(** C4 as stated fails: two sources named [a.mmd] in different directories,
    the first of which fails to render, and a clock read twice within one
    millisecond; both renders get the identifier [mmd_a_mmd_1700000000000]. *)
Lemma diagram_id_counterexample :
  render_ids
    (w_calls (snd (run (Demo.libs Demo.coarse_clock) Demo.default_cfg
                     (Demo.world "/w" Demo.fs_same_name))))
  = ["mmd_a_mmd_1700000000000"; "mmd_a_mmd_1700000000000"].
Proof. by_computation. Qed.

(** ** One file after others (C8) *)

Section Isolation.

Context {Dom : Type} (L : Libs Dom) (cfg : Config).


(** The file system after one conversion: as before, or with the output
    directory created and the write attempted. *)
Lemma renderOne_fs (g : string) (w : World Dom) :
  let D := Path.resolve_segs (w_cwd w) (Path.resolve (w_cwd w) (OUTPUT_DIR cfg)) in
  w_fs (snd (renderOne L cfg g w)) = w_fs w
  \/ (mkdir_ok D (w_fs w) = true
      /\ exists png,
          w_fs (snd (renderOne L cfg g w))
          = snd (Fs.writeFile (w_cwd w) (Fs.make_dirs (w_fs w) D)
                   (outPath cfg (w_cwd w) g) png)).
Proof.
  cbv zeta. rewrite renderOne_unfold. cbv zeta.
  destruct (Fs.readFile (w_cwd w) (w_fs w) g) as [code|e]; [|left; reflexivity].
  destruct (lib_render L (MERMAID_THEME cfg) (w_dom w)
              (diagramId g (lib_now L (w_ticks w))) code) as [[svg|e] d];
    [|left; reflexivity].
  cbn [fst snd]. destruct (lib_resvg L svg) as [png|e]; [|left; reflexivity].
  destruct (FsFacts.mkdir_recursive (w_cwd w) (w_fs w)
              (Path.resolve (w_cwd w) (OUTPUT_DIR cfg))) as [Hok Hfs].
  pose proof (FsFacts.mkdir_throw_unchanged (w_cwd w) (w_fs w)
                (Path.resolve (w_cwd w) (OUTPUT_DIR cfg)) true) as Hun.
  destruct (fst (Fs.mkdir _ _ _ true)) as [[]|e].
  - right. split; [symmetry; exact Hok|]. exists png.
    rewrite (Hfs (eq_sym Hok)). fold (outPath cfg (w_cwd w) g).
    destruct (fst (Fs.writeFile _ _ _ png)) as [[]|e]; reflexivity.
  - left. world_simpl. apply Hun. reflexivity.
Qed.



End Isolation.



(** ** The file locator (C9) *)

Module GlobFacts.







End GlobFacts.




(** C6, on the tree of the specification's example: [b.mmd] fails to render
    and nothing is written for it, the loop goes on, and [a.mmd] is converted
    and stored. *)
Lemma failed_conversion_witness :
  (is_ok (fst (renderOne (Demo.libs Demo.steady_clock) Demo.default_cfg
                 "/w/diagrams/b.mmd" (Demo.world "/w" Demo.fs1))) = false
   /\ w_fs (snd (renderOne (Demo.libs Demo.steady_clock) Demo.default_cfg
                   "/w/diagrams/b.mmd" (Demo.world "/w" Demo.fs1)))
      = w_fs (Demo.world "/w" Demo.fs1)
   /\ forall c b,
        In (c, b) (calls_since (Demo.world "/w" Demo.fs1)
                     (snd (renderOne (Demo.libs Demo.steady_clock) Demo.default_cfg
                             "/w/diagrams/b.mmd" (Demo.world "/w" Demo.fs1)))) ->
        touches_disk c = false)
  /\ (exists w2,
         loop_body (Demo.libs Demo.steady_clock) Demo.default_cfg "/w/diagrams/b.mmd"
           {| ok := 0; fail := 0 |} (Demo.world "/w" Demo.fs1)
         = (Ok {| ok := 0; fail := 1 |}, w2)
         /\ w_fs w2 = w_fs (Demo.world "/w" Demo.fs1)
         /\ for_of (Demo.libs Demo.steady_clock) Demo.default_cfg
              ([] ++ "/w/diagrams/b.mmd" :: ["/w/diagrams/a.mmd"])
              {| ok := 0; fail := 0 |} (Demo.world "/w" Demo.fs1)
            = for_of (Demo.libs Demo.steady_clock) Demo.default_cfg ["/w/diagrams/a.mmd"]
                {| ok := 0; fail := 1 |} w2)
  /\ (exists png,
         In (CallWriteFile "/w/diagrams/a.png" png, true)
           (calls_since (Demo.world "/w" Demo.fs1)
              (snd (renderOne (Demo.libs Demo.steady_clock) Demo.default_cfg
                      "/w/diagrams/a.mmd" (Demo.world "/w" Demo.fs1))))
         /\ Fs.data_at
              (w_fs (snd (renderOne (Demo.libs Demo.steady_clock) Demo.default_cfg
                            "/w/diagrams/a.mmd" (Demo.world "/w" Demo.fs1))))
              (Path.resolve_segs (w_cwd (Demo.world "/w" Demo.fs1)) "/w/diagrams/a.png")
            = Some png).
Proof.
  destruct (failed_conversion_writes_nothing (Demo.libs Demo.steady_clock) Demo.default_cfg)
    as (Hone & Hbatch & Hstored).
  assert (Hfail : exists c,
             is_conversion_step c = true
             /\ In (c, false)
                  (calls_since (Demo.world "/w" Demo.fs1)
                     (snd (renderOne (Demo.libs Demo.steady_clock) Demo.default_cfg
                             "/w/diagrams/b.mmd" (Demo.world "/w" Demo.fs1))))).
  { exists (CallRender "mmd_b_mmd_1700000000000" Demo.broken).
    split; [reflexivity|]. vm_compute. auto. }
  split; [|split].
  - apply (Hone "/w/diagrams/b.mmd" (Demo.world "/w" Demo.fs1) Hfail).
  - apply (Hbatch [] "/w/diagrams/b.mmd" ["/w/diagrams/a.mmd"]
             {| ok := 0; fail := 0 |} (Demo.world "/w" Demo.fs1)
             {| ok := 0; fail := 0 |} (Demo.world "/w" Demo.fs1) eq_refl Hfail).
  - apply (Hstored "/w/diagrams/a.mmd" (Demo.world "/w" Demo.fs1) "/w/diagrams/a.png").
    by_computation.
Defined.

(** C10, on the tree where every source fails to render: [mkdir] is never
    called and the file system is the same after the run; on the tree of the
    specification's example it is called once, for [a.mmd], and the output
    directory, which exists, is left as it is. *)
Lemma output_directory_witness :
  (true = true
   /\ "/w/diagrams" = Path.resolve (w_cwd (Demo.world "/w" Demo.fs1))
                        (OUTPUT_DIR Demo.default_cfg)
   /\ exists id code svg png,
        calls_since (Demo.world "/w" Demo.fs1)
          (snd (renderOne (Demo.libs Demo.steady_clock) Demo.default_cfg
                  "/w/diagrams/a.mmd" (Demo.world "/w" Demo.fs1)))
        = ([(CallReadFile "/w/diagrams/a.mmd", true); (CallNow, true);
            (CallRender id code, true); (CallResvg svg, true);
            (CallMkdir "/w/diagrams" true, true)]
           ++ (if true
               then [(CallWriteFile (Path.join "/w/diagrams" (outName "/w/diagrams/a.mmd"))
                        png,
                      is_ok (fst (renderOne (Demo.libs Demo.steady_clock) Demo.default_cfg
                                    "/w/diagrams/a.mmd" (Demo.world "/w" Demo.fs1))))]
               else []))%list)
  /\ w_fs (snd (run (Demo.libs Demo.steady_clock) Demo.default_cfg
                  (Demo.world "/w" Demo.fs_all_broken)))
     = w_fs (Demo.world "/w" Demo.fs_all_broken)
  /\ (fst (ensureDir "/w/diagrams" (Demo.world "/w" Demo.fs1)) = Ok tt
      /\ w_fs (snd (ensureDir "/w/diagrams" (Demo.world "/w" Demo.fs1)))
         = w_fs (Demo.world "/w" Demo.fs1)).
Proof.
  destruct (output_directory_is_created_lazily (Demo.libs Demo.steady_clock)
              Demo.default_cfg) as (Hlazy & Hnone & Hexists).
  split; [|split].
  - apply (Hlazy "/w/diagrams/a.mmd" (Demo.world "/w" Demo.fs1) "/w/diagrams" true true).
    vm_compute. auto 10.
  - apply (Hnone (Demo.world "/w" Demo.fs_all_broken)
             ["/w/diagrams/c.mmd"; "/w/diagrams/b.mmd"]).
    + by_computation.
    + by_computation.
  - apply (Hexists (Demo.world "/w" Demo.fs1) "/w/diagrams"). by_computation.
Defined.


(** C4, on the tree with two sources of one name and a clock that advances
    between readings: the two identifiers differ. *)
Lemma diagram_id_witness :
  NoDup (render_ids
           (w_calls (snd (run (Demo.libs Demo.steady_clock) Demo.default_cfg
                            (Demo.world "/w" Demo.fs_same_name))))).
Proof.
  apply (proj2 (diagram_ids_equal_iff (Demo.libs Demo.steady_clock) Demo.default_cfg)
           (Demo.world "/w" Demo.fs_same_name)
           ["/w/diagrams/y/a.mmd"; "/w/diagrams/x/a.mmd"]).
  - by_computation.
  - reflexivity.
  - intros n m H. unfold Demo.libs, Demo.steady_clock in H. cbn [lib_now] in H. lia.
Defined.

(** ** The configuration (script lines 13-15) *)

Lemma env_or_not_empty (env : gmap string string) (key fallback : string) :
  fallback <> "" -> env_or env key fallback <> "".
Proof.
  intros Hf. unfold env_or. destruct (env !! key) as [v|]; [|exact Hf].
  destruct (String.eqb v "") eqn:E; [exact Hf|].
  intros ->. discriminate.
Qed.

(** X1: whatever the environment holds, the three configured values are
    non-empty: a variable that is unset or set to the empty string gives the
    default.  So the locator's rejection of an empty pattern never occurs for
    the pattern the script passes. *)
Theorem config_values_are_never_empty (env : gmap string string) (cwd : string)
    (fs : gmap (list string) Fs.Node) :
  INPUT_PATTERN (config_of_env env) <> ""
  /\ OUTPUT_DIR (config_of_env env) <> ""
  /\ MERMAID_THEME (config_of_env env) <> ""
  /\ config_of_env (<["INPUT_PATTERN" := ""]> (<["OUTPUT_DIR" := ""]> env))
     = config_of_env (delete "INPUT_PATTERN" (delete "OUTPUT_DIR" env))
  /\ is_ok (Glob.fast_glob [INPUT_PATTERN (config_of_env env)] fg_options cwd fs) = true.
Proof.
  assert (Hin : INPUT_PATTERN (config_of_env env) <> "")
    by (apply env_or_not_empty; discriminate).
  split; [exact Hin|].
  split; [apply env_or_not_empty; discriminate|].
  split; [apply env_or_not_empty; discriminate|]. split.
  - unfold config_of_env, env_or.
    rewrite lookup_insert_eq.
    rewrite (lookup_insert_ne _ "INPUT_PATTERN" "OUTPUT_DIR") by discriminate.
    rewrite lookup_insert_eq.
    rewrite (lookup_insert_ne _ "INPUT_PATTERN" "MERMAID_THEME") by discriminate.
    rewrite (lookup_insert_ne _ "OUTPUT_DIR" "MERMAID_THEME") by discriminate.
    rewrite lookup_delete_eq.
    rewrite (lookup_delete_ne _ "INPUT_PATTERN" "OUTPUT_DIR") by discriminate.
    rewrite lookup_delete_eq.
    rewrite (lookup_delete_ne _ "INPUT_PATTERN" "MERMAID_THEME") by discriminate.
    rewrite (lookup_delete_ne _ "OUTPUT_DIR" "MERMAID_THEME") by discriminate.
    reflexivity.
  - unfold Glob.fast_glob. cbn [existsb].
    destruct (String.eqb "" (INPUT_PATTERN (config_of_env env))) eqn:E.
    + apply String.eqb_eq in E. exfalso. apply Hin. symmetry. exact E.
    + reflexivity.
Qed.

(** ** The whole run (script lines 64-97) *)

Section Batch.

Context {Dom : Type} (L : Libs Dom) (cfg : Config).


(** The calls and the lines of one turn of the loop. *)
Lemma loop_body_turn (f : string) (t : Tally) (w : World Dom) :
  exists (b : bool) cs line,
    loop_body L cfg f t w
    = (Ok {| ok := (if b then 1 else 0) + ok t; fail := (if b then 0 else 1) + fail t |},
       snd (loop_body L cfg f t w))
    /\ w_cwd (snd (loop_body L cfg f t w)) = w_cwd w
    /\ w_calls (snd (loop_body L cfg f t w)) = (w_calls w ++ cs)%list
    /\ conversion_calls f (Path.resolve (w_cwd w) (OUTPUT_DIR cfg)) b cs
    /\ w_console (snd (loop_body L cfg f t w)) = (w_console w ++ [line])%list
    /\ line_of (w_cwd w) f line
    /\ on_stream Stdout line = b
    /\ on_stream Stderr line = negb b.
Proof.
  destruct (renderOne_effect L cfg f w) as (Hcwd & Hcon & cs & Hcs & Hshape & _).
  destruct (renderOne L cfg f w) as [[out|e] w'] eqn:Hr; cbn [fst snd is_ok] in *.
  - rewrite (loop_body_ok L cfg _ _ t _ _ Hr). cbn [snd].
    exists true, cs. eexists. world_simpl.
    split; [reflexivity|]. split; [exact Hcwd|]. split; [exact Hcs|].
    split; [exact Hshape|]. split; [rewrite Hcon; reflexivity|].
    split; [|split; reflexivity].
    left. exists out. rewrite Hcwd. reflexivity.
  - rewrite (loop_body_throw L cfg _ t _ _ _ Hr). cbn [snd].
    exists false, cs. eexists. world_simpl.
    split; [reflexivity|]. split; [exact Hcwd|]. split; [exact Hcs|].
    split; [exact Hshape|]. split; [rewrite Hcon; reflexivity|].
    split; [|split; reflexivity].
    right. exists e. reflexivity.
Qed.

Lemma count_app {A : Type} (p : A -> bool) (a b : list A) :
  count p (a ++ b) = count p a + count p b.
Proof. induction a as [|x a IH]; cbn; [reflexivity|]. rewrite IH. lia. Qed.

(** The calls and the lines of the loop. *)
Lemma for_of_batch (files : list string) (t : Tally) (w : World Dom) :
  exists oks fails cs lines,
    for_of L cfg files t w
    = (Ok {| ok := oks + ok t; fail := fails + fail t |}, snd (for_of L cfg files t w))
    /\ w_calls (snd (for_of L cfg files t w)) = (w_calls w ++ cs)%list
    /\ batch_calls (Path.resolve (w_cwd w) (OUTPUT_DIR cfg)) files oks fails cs
    /\ w_console (snd (for_of L cfg files t w)) = (w_console w ++ lines)%list
    /\ Forall2 (line_of (w_cwd w)) files lines
    /\ count (on_stream Stdout) lines = oks
    /\ count (on_stream Stderr) lines = fails.
Proof.
  revert t w. induction files as [|f rest IH]; intros t w.
  - exists 0, 0, [], []. cbn. rewrite !app_nil_r. destruct t.
    repeat split; constructor.
  - destruct (loop_body_turn f t w)
      as (b & cs1 & line & Hb & Hcwd & Hc1 & Hshape & Hl1 & Hline & Hout & Herr).
    rewrite (for_of_cons L cfg _ _ _ _ _ _ Hb).
    destruct (IH {| ok := (if b then 1 else 0) + ok t; fail := (if b then 0 else 1) + fail t |}
                (snd (loop_body L cfg f t w)))
      as (oks & fails & cs2 & lines & Hf & Hc2 & Hbatch & Hl2 & Hlines & Ho & He).
    rewrite Hcwd in Hbatch, Hlines.
    exists ((if b then 1 else 0) + oks), ((if b then 0 else 1) + fails),
      (cs1 ++ cs2)%list, (line :: lines).
    split.
    { rewrite Hf at 1. cbn [ok fail]. do 3 f_equal; lia. }
    split; [rewrite Hc2, Hc1; apply eq_sym, app_assoc|].
    split; [constructor; assumption|].
    split; [rewrite Hl2, Hl1, <- app_assoc; reflexivity|].
    split; [constructor; assumption|].
    cbn [count]. rewrite Hout, Herr, Ho, He. destruct b; split; reflexivity.
Qed.

Lemma conversion_calls_facts (f outDir : string) (b : bool) (cs : list (Call * bool)) :
  conversion_calls f outDir b cs ->
  read_paths cs = [f]
  /\ count write_returned cs = (if b then 1 else 0)
  /\ count (fun cb => is_glob (fst cb)) cs = 0.
Proof. intros H. destruct H; try destruct written; repeat split. Qed.

Lemma batch_calls_facts (outDir : string) (files : list string) (oks fails : nat)
    (cs : list (Call * bool)) :
  batch_calls outDir files oks fails cs ->
  read_paths cs = files
  /\ count write_returned cs = oks
  /\ count (fun cb => is_glob (fst cb)) cs = 0
  /\ oks + fails = length files.
Proof.
  induction 1 as [|f files b cs rest oks fails Hc Hb (IHr & IHw & IHg & IHn)].
  - repeat split.
  - destruct (conversion_calls_facts _ _ _ _ Hc) as (Hr & Hw & Hg).
    unfold read_paths in *. rewrite omap_app, Hr, IHr, !count_app, Hw, Hg, IHw, IHg.
    cbn [length]. destruct b; repeat split; lia.
Qed.

(** The calls of the whole of [main] when the locator returns files. *)
Lemma main_batch (w : World Dom) (files : list string) :
  lib_fg L [INPUT_PATTERN cfg] fg_options (w_cwd w) (w_fs w) = Ok files ->
  files <> [] ->
  exists oks fails cs lines,
    main L cfg w = (Ok {| ok := oks; fail := fails |}, snd (main L cfg w))
    /\ calls_since w (snd (main L cfg w))
       = (CallGlob [INPUT_PATTERN cfg] fg_options, true) :: cs
    /\ batch_calls (Path.resolve (w_cwd w) (OUTPUT_DIR cfg)) files oks fails cs
    /\ w_console (snd (main L cfg w))
       = (w_console w
          ++ [(Stdout, "Rendering " +:+ nat_to_string (length files)
                       +:+ " Mermaid file(s) to PNG (no browser)...")]
          ++ lines
          ++ [(Stdout, summary_line {| ok := oks; fail := fails |})])%list
    /\ Forall2 (line_of (w_cwd w)) files lines
    /\ count (on_stream Stdout) lines = oks
    /\ count (on_stream Stderr) lines = fails.
Proof.
  intros Hfg Hne.
  destruct (main_some_match L cfg w files Hfg Hne) as (t & w' & Hfor & Hmain).
  match type of Hfor with
  | for_of L cfg ?fs ?t0 ?w0 = _ =>
      destruct (for_of_batch fs t0 w0)
        as (oks & fails & cs & lines & Hf & Hc & Hbatch & Hl & Hlines & Ho & He)
  end.
  rewrite Hfor in Hf, Hc, Hl. cbn [snd ok fail] in Hf, Hc, Hl.
  world_simpl_in Hc. world_simpl_in Hl. world_simpl_in Hbatch. world_simpl_in Hlines.
  injection Hf as Ht. subst t.
  exists oks, fails, cs, lines. rewrite Hmain. cbn [snd]. world_simpl.
  rewrite !Nat.add_0_r in *.
  split; [reflexivity|]. split.
  { unfold calls_since. world_simpl. rewrite Hc, <- app_assoc, drop_app_length.
    reflexivity. }
  split; [exact Hbatch|]. split.
  { rewrite Hl, <- !app_assoc. reflexivity. }
  auto.
Qed.

(** X3: the locator is called once in a run, before anything else: files
    that appear while the batch runs are not picked up. *)
Theorem locator_is_called_once_and_first (w : World Dom) :
  exists rest,
    calls_since w (snd (run L cfg w))
    = (CallGlob [INPUT_PATTERN cfg] fg_options,
       is_ok (lib_fg L [INPUT_PATTERN cfg] fg_options (w_cwd w) (w_fs w))) :: rest
    /\ count (fun cb => is_glob (fst cb)) rest = 0.
Proof.
  unfold run.
  destruct (lib_fg L [INPUT_PATTERN cfg] fg_options (w_cwd w) (w_fs w)) as [files|e] eqn:H.
  - destruct files as [|f files].
    + rewrite (main_no_match L cfg w H). exists [].
      unfold calls_since. world_simpl. rewrite drop_app_length. split; reflexivity.
    + destruct (main_batch w (f :: files) H) as (oks & fails & cs & lines & Hm & Hc & Hb & _);
        [discriminate|].
      rewrite Hm in *. cbn [snd] in *. exists cs. split; [exact Hc|].
      apply (batch_calls_facts _ _ _ _ _ Hb).
  - unfold main, bind, fg. rewrite H. exists [].
    unfold calls_since. world_simpl. rewrite drop_app_length. split; reflexivity.
Qed.

(** X4: every file the locator returns is read exactly once, in the
    locator's order, whether earlier files failed or not; no file is skipped
    or tried again, and no other file is read. *)
Theorem every_matched_file_is_read_once_in_order (w : World Dom) :
  read_paths (calls_since w (snd (run L cfg w)))
  = match lib_fg L [INPUT_PATTERN cfg] fg_options (w_cwd w) (w_fs w) with
    | Ok files => files
    | Throw _ => []
    end.
Proof.
  unfold run.
  destruct (lib_fg L [INPUT_PATTERN cfg] fg_options (w_cwd w) (w_fs w)) as [files|e] eqn:H.
  - destruct files as [|f files].
    + rewrite (main_no_match L cfg w H).
      unfold calls_since. world_simpl. rewrite drop_app_length. reflexivity.
    + destruct (main_batch w (f :: files) H) as (oks & fails & cs & lines & Hm & Hc & Hb & _);
        [discriminate|].
      rewrite Hm in *. cbn [snd] in *. rewrite Hc.
      destruct (batch_calls_facts _ _ _ _ _ Hb) as (Hr & _). exact Hr.
  - unfold main, bind, fg. rewrite H.
    unfold calls_since. world_simpl. rewrite drop_app_length. reflexivity.
Qed.

(** X5: when the locator returns files, the console gets the announcement,
    then one line per file in the locator's order (the success line on the
    standard output or the failure line on the standard error, each naming
    its file), then the summary; the summary's two counts are the numbers of
    those lines on the two streams. *)
Theorem console_has_one_line_per_file (w : World Dom) (files : list string) :
  lib_fg L [INPUT_PATTERN cfg] fg_options (w_cwd w) (w_fs w) = Ok files ->
  files <> [] ->
  exists t lines,
    fst (main L cfg w) = Ok t
    /\ w_console (snd (run L cfg w))
       = (w_console w
          ++ [(Stdout, "Rendering " +:+ nat_to_string (length files)
                       +:+ " Mermaid file(s) to PNG (no browser)...")]
          ++ lines
          ++ [(Stdout, "Done. Success: " +:+ nat_to_string (ok t)
                       +:+ ", Failed: " +:+ nat_to_string (fail t))])%list
    /\ Forall2 (line_of (w_cwd w)) files lines
    /\ count (on_stream Stdout) lines = ok t
    /\ count (on_stream Stderr) lines = fail t.
Proof.
  intros Hfg Hne.
  destruct (main_batch w files Hfg Hne)
    as (oks & fails & cs & lines & Hm & _ & _ & Hl & Hlines & Ho & He).
  exists {| ok := oks; fail := fails |}, lines. unfold run. rewrite Hm in *.
  cbn [fst snd ok fail] in *. auto.
Qed.

(** X6: the success count of the summary is the number of [writeFile] calls
    that returned: a file is counted as converted exactly when its image was
    written. *)
Theorem success_count_is_the_number_of_images_written (w : World Dom)
    (files : list string) :
  lib_fg L [INPUT_PATTERN cfg] fg_options (w_cwd w) (w_fs w) = Ok files ->
  exists t,
    fst (main L cfg w) = Ok t
    /\ count write_returned (calls_since w (snd (run L cfg w))) = ok t
    /\ fail t = length files - ok t.
Proof.
  intros Hfg. unfold run. destruct files as [|f files].
  - rewrite (main_no_match L cfg w Hfg). eexists. split; [reflexivity|].
    unfold calls_since. world_simpl. rewrite drop_app_length. split; reflexivity.
  - destruct (main_batch w (f :: files) Hfg) as (oks & fails & cs & lines & Hm & Hc & Hb & _);
      [discriminate|].
    rewrite Hm in *. cbn [fst snd] in *. eexists. split; [reflexivity|].
    destruct (batch_calls_facts _ _ _ _ _ Hb) as (_ & Hw & _ & Hn).
    rewrite Hc. cbn [count write_returned is_write fst andb ok fail]. split; [exact Hw|lia].
Qed.

End Batch.

(** X2, in a process whose locator cannot list the working directory. *)
Example locator_throws_ex :
  exit_status libs_failing_fg Demo.default_cfg (Demo.world "/w" Demo.fs1) = 1%Z.
Proof. by_computation. Qed.

(** X5, on the tree of the specification's example. *)
Lemma console_witness :
  exists t lines,
    fst (main (Demo.libs Demo.steady_clock) Demo.default_cfg (Demo.world "/w" Demo.fs1))
    = Ok t
    /\ w_console (snd (run (Demo.libs Demo.steady_clock) Demo.default_cfg
                         (Demo.world "/w" Demo.fs1)))
       = (w_console (Demo.world "/w" Demo.fs1)
          ++ [(Stdout, "Rendering "
                       +:+ nat_to_string (length ["/w/diagrams/b.mmd"; "/w/diagrams/a.mmd"])
                       +:+ " Mermaid file(s) to PNG (no browser)...")]
          ++ lines
          ++ [(Stdout, "Done. Success: " +:+ nat_to_string (ok t)
                       +:+ ", Failed: " +:+ nat_to_string (fail t))])%list
    /\ Forall2 (line_of (w_cwd (Demo.world "/w" Demo.fs1)))
         ["/w/diagrams/b.mmd"; "/w/diagrams/a.mmd"] lines
    /\ count (on_stream Stdout) lines = ok t
    /\ count (on_stream Stderr) lines = fail t.
Proof.
  apply (console_has_one_line_per_file (Demo.libs Demo.steady_clock) Demo.default_cfg
           (Demo.world "/w" Demo.fs1) ["/w/diagrams/b.mmd"; "/w/diagrams/a.mmd"]).
  - by_computation.
  - discriminate.
Defined.

(** X6, on the tree of the specification's example. *)
Lemma success_count_witness :
  exists t,
    fst (main (Demo.libs Demo.steady_clock) Demo.default_cfg (Demo.world "/w" Demo.fs1))
    = Ok t
    /\ count write_returned
         (calls_since (Demo.world "/w" Demo.fs1)
            (snd (run (Demo.libs Demo.steady_clock) Demo.default_cfg
                    (Demo.world "/w" Demo.fs1)))) = ok t
    /\ fail t = length ["/w/diagrams/b.mmd"; "/w/diagrams/a.mmd"] - ok t.
Proof.
  apply (success_count_is_the_number_of_images_written
           (Demo.libs Demo.steady_clock) Demo.default_cfg (Demo.world "/w" Demo.fs1)
           ["/w/diagrams/b.mmd"; "/w/diagrams/a.mmd"]).
  by_computation.
Defined.

Section Trace.

Context {Dom : Type} (L : Libs Dom) (cfg : Config).

(** X18: when the locator returns, the calls of a run are the locator's
    call followed, for each matched file in order, by the calls of one
    conversion: [readFile] of the file, the clock, the renderer, the
    rasterizer, [mkdir] of the resolved output directory with [recursive],
    and [writeFile] of the output path, up to the first of them that
    throws.  Nothing else is called, and the two counts are the numbers of
    conversions that ran to the end and of the others. *)
Theorem calls_of_a_run (w : World Dom) (files : list string) :
  lib_fg L [INPUT_PATTERN cfg] fg_options (w_cwd w) (w_fs w) = Ok files ->
  exists t cs,
    fst (main L cfg w) = Ok t
    /\ calls_since w (snd (run L cfg w))
       = (CallGlob [INPUT_PATTERN cfg] fg_options, true) :: cs
    /\ batch_calls (Path.resolve (w_cwd w) (OUTPUT_DIR cfg)) files (ok t) (fail t) cs.
Proof.
  intros Hfg. unfold run. destruct files as [|f files].
  - rewrite (main_no_match L cfg w Hfg). exists {| ok := 0; fail := 0 |}, [].
    split; [reflexivity|]. split; [|constructor].
    unfold calls_since. world_simpl. rewrite drop_app_length. reflexivity.
  - destruct (main_batch L cfg w (f :: files) Hfg)
      as (oks & fails & cs & lines & Hm & Hc & Hb & _); [discriminate|].
    rewrite Hm in *. cbn [fst snd] in *.
    exists {| ok := oks; fail := fails |}, cs. auto.
Qed.

End Trace.

(** X18, on the tree of the specification's example. *)
Lemma calls_witness :
  exists t cs,
    fst (main (Demo.libs Demo.steady_clock) Demo.default_cfg (Demo.world "/w" Demo.fs1))
    = Ok t
    /\ calls_since (Demo.world "/w" Demo.fs1)
         (snd (run (Demo.libs Demo.steady_clock) Demo.default_cfg
                 (Demo.world "/w" Demo.fs1)))
       = (CallGlob [INPUT_PATTERN Demo.default_cfg] fg_options, true) :: cs
    /\ batch_calls (Path.resolve "/w" (OUTPUT_DIR Demo.default_cfg))
         ["/w/diagrams/b.mmd"; "/w/diagrams/a.mmd"] (ok t) (fail t) cs.
Proof.
  apply (calls_of_a_run (Demo.libs Demo.steady_clock) Demo.default_cfg
           (Demo.world "/w" Demo.fs1) ["/w/diagrams/b.mmd"; "/w/diagrams/a.mmd"]).
  by_computation.
Defined.

(** ** The two replacements (script lines 39 and 57) *)

Module ReplaceFacts.

Lemma all_chars_app (p : ascii -> bool) (a b : string) :
  all_chars p (a +:+ b) = all_chars p a && all_chars p b.
Proof.
  induction a as [|c a IH]; [reflexivity|].
  rewrite NameFacts.append_cons. cbn [all_chars]. rewrite IH. apply andb_assoc.
Qed.

Lemma all_chars_weaken (p q : ascii -> bool) (s : string) :
  (forall c, p c = true -> q c = true) -> all_chars p s = true -> all_chars q s = true.
Proof.
  intros Hpq. induction s as [|c s IH]; [reflexivity|]. cbn.
  intros H. apply andb_true_iff in H as [Hc Hs]. rewrite (Hpq c Hc), (IH Hs). reflexivity.
Qed.

Lemma replace_nonword_from_word (in_run : bool) (s : string) :
  all_chars Js.is_word (Js.replace_nonword_from in_run s) = true.
Proof.
  revert in_run. induction s as [|c s IH]; intros in_run; [reflexivity|].
  cbn [Js.replace_nonword_from]. destruct (Js.is_word c) eqn:Hc.
  - cbn [all_chars]. rewrite Hc, IH. reflexivity.
  - destruct in_run; [apply IH|]. cbn [all_chars]. rewrite IH. reflexivity.
Qed.

Lemma replace_nonword_from_id (in_run : bool) (s : string) :
  all_chars Js.is_word s = true -> Js.replace_nonword_from in_run s = s.
Proof.
  revert in_run. induction s as [|c s IH]; intros in_run H; [reflexivity|].
  cbn in H. apply andb_true_iff in H as [Hc Hs].
  cbn [Js.replace_nonword_from]. rewrite Hc, (IH false Hs). reflexivity.
Qed.

Lemma replace_nonword_from_length (in_run : bool) (s : string) :
  String.length (Js.replace_nonword_from in_run s) <= String.length s.
Proof.
  revert in_run. induction s as [|c s IH]; intros in_run; [reflexivity|].
  cbn [Js.replace_nonword_from String.length].
  destruct (Js.is_word c); [specialize (IH false); cbn [String.length]; lia|].
  destruct in_run; specialize (IH true); cbn [String.length]; lia.
Qed.

Lemma digits_are_word (d : Decimal.uint) :
  all_chars Js.is_word (NilEmpty.string_of_uint d) = true.
Proof. induction d; cbn [NilEmpty.string_of_uint all_chars]; try rewrite IHd; reflexivity. Qed.

Lemma num_to_string_chars (z : Z) :
  all_chars (fun c => Js.is_word c || Ascii.eqb c "-") (Js.num_to_string z) = true
  /\ (0 <= z -> all_chars Js.is_word (Js.num_to_string z) = true)%Z.
Proof.
  assert (Hd : forall d, all_chars Js.is_word (NilZero.string_of_uint d) = true).
  { intros d. unfold NilZero.string_of_uint.
    destruct d; try reflexivity; apply (digits_are_word (_ d)). }
  unfold Js.num_to_string. split.
  - destruct (Z.to_int z) as [d|d]; cbn [NilZero.string_of_int all_chars].
    + apply (all_chars_weaken Js.is_word); [|apply Hd].
      intros c ->. reflexivity.
    + apply andb_true_iff. split; [reflexivity|].
      apply (all_chars_weaken Js.is_word); [|apply Hd].
      intros c ->. reflexivity.
  - intros Hz. destruct z as [|q|q]; [reflexivity| |lia].
    cbn [Z.to_int NilZero.string_of_int]. apply Hd.
Qed.

(** The replacement of [.png] does not apply to a name that already ends
    in [.png]. *)
Lemma png_does_not_match (t : string) : Js.ext_matches_here (t +:+ ".png") = false.
Proof.
  apply not_true_is_false. intros H.
  apply NameFacts.ext_matches_here_iff in H. rewrite NameFacts.lower_app in H.
  change (Js.lower ".png") with ".png" in H.
  assert (Hlen : forall e, In e Js.source_exts -> e = Js.lower t +:+ ".png" ->
                           String.length e = String.length (Js.lower t) + 4).
  { intros e _ ->. rewrite NameFacts.length_append. reflexivity. }
  pose proof (Hlen _ H eq_refl) as Hl. clear Hlen.
  remember (Js.lower t) as lt eqn:E. clear E t.
  cbn in H. destruct H as [H|[H|[H|[]]]]; rewrite <- H in Hl; cbn in Hl.
  - destruct lt; [discriminate|cbn in Hl; lia].
  - do 5 (destruct lt as [|? lt]; cbn in Hl; try lia).
    rewrite !NameFacts.append_cons, NameFacts.append_nil in H. discriminate.
  - destruct lt; [discriminate|cbn in Hl; lia].
Qed.

Lemma replace_ext_png (stem : string) :
  Js.replace_ext (stem +:+ ".png") = stem +:+ ".png".
Proof.
  induction stem as [|c stem IH]; [reflexivity|].
  rewrite NameFacts.append_cons. cbn [Js.replace_ext].
  rewrite <- NameFacts.append_cons, png_does_not_match, NameFacts.append_cons, IH.
  reflexivity.
Qed.

(** The two cases of the replacement. *)
Lemma replace_ext_cases (s : string) :
  (has_source_ext s = false /\ Js.replace_ext s = s)
  \/ (has_source_ext s = true
      /\ exists stem ext,
           s = stem +:+ ext /\ In (Js.lower ext) Js.source_exts
           /\ Js.replace_ext s = stem +:+ ".png").
Proof.
  induction s as [|c s IH]; [left; split; reflexivity|].
  unfold has_source_ext in *. cbn [any_tail Js.replace_ext].
  destruct (Js.ext_matches_here (String c s)) eqn:Hm.
  - right. split; [reflexivity|]. exists "", (String c s).
    split; [reflexivity|]. split; [apply NameFacts.ext_matches_here_iff, Hm|reflexivity].
  - cbn [orb]. destruct IH as [[Hn Hr]|[Hy (stem & ext & -> & Hext & Hr)]].
    + left. rewrite Hr. split; [exact Hn|reflexivity].
    + right. split; [exact Hy|]. exists (String c stem), ext.
      rewrite Hr. repeat split. exact Hext.
Qed.

End ReplaceFacts.

(** X7: the diagram identifier starts with [mmd_] and is made of letters,
    digits and underscores only, whatever the name of the file (and of a
    minus sign, should the clock read a negative number): it is safe to use
    as an element id and in a selector. *)
Theorem diagram_id_is_an_identifier (f : string) (now : Z) :
  String.prefix "mmd_" (diagramId f now) = true
  /\ all_chars (fun c => Js.is_word c || Ascii.eqb c "-") (diagramId f now) = true
  /\ ((0 <= now)%Z -> all_chars Js.is_word (diagramId f now) = true).
Proof.
  unfold diagramId. split.
  { change ("mmd_" +:+ ?x) with (String "m" (String "m" (String "d" (String "_" x)))).
    destruct (Js.replace_nonword (Path.basename f) +:+ "_" +:+ Js.num_to_string now);
      reflexivity. }
  destruct (ReplaceFacts.num_to_string_chars now) as [Hany Hpos].
  pose proof (ReplaceFacts.replace_nonword_from_word false (Path.basename f)) as Hw.
  fold (Js.replace_nonword (Path.basename f)) in Hw.
  split.
  - rewrite !ReplaceFacts.all_chars_app, Hany.
    rewrite (ReplaceFacts.all_chars_weaken Js.is_word _ _ (fun c H => eq_trans (f_equal (fun b => b || _) H) eq_refl) Hw).
    reflexivity.
  - intros Hz. rewrite !ReplaceFacts.all_chars_app, Hw, (Hpos Hz). reflexivity.
Qed.

Lemma diagram_id_witness_chars :
  all_chars Js.is_word (diagramId "/w/diagrams/my flow-chart.v2.mmd" 1700000000000) = true.
Proof.
  apply (diagram_id_is_an_identifier "/w/diagrams/my flow-chart.v2.mmd" 1700000000000).
  lia.
Defined.

(** X8: replacing the runs of non-word characters leaves only word
    characters, never makes the name longer, and changes nothing when done a
    second time. *)
Theorem sanitising_a_name (s : string) :
  all_chars Js.is_word (Js.replace_nonword s) = true
  /\ String.length (Js.replace_nonword s) <= String.length s
  /\ Js.replace_nonword (Js.replace_nonword s) = Js.replace_nonword s.
Proof.
  unfold Js.replace_nonword. split; [apply ReplaceFacts.replace_nonword_from_word|].
  split; [apply ReplaceFacts.replace_nonword_from_length|].
  apply ReplaceFacts.replace_nonword_from_id, ReplaceFacts.replace_nonword_from_word.
Qed.

(** X9: the output name is the base name itself when the base name does not
    end in one of the three extensions; otherwise it ends in [.png]; names
    that differ only in which of the three extensions they carry, or in its
    letter case, get the same output name; and replacing the extension of an
    output name changes nothing. *)
Theorem output_name_cases :
  (forall f, has_source_ext (Path.basename f) = false -> outName f = Path.basename f)
  /\ (forall f, has_source_ext (Path.basename f) = true ->
                exists stem, outName f = stem +:+ ".png")
  /\ (forall stem ext1 ext2,
         In (Js.lower ext1) Js.source_exts -> In (Js.lower ext2) Js.source_exts ->
         Js.replace_ext (stem +:+ ext1) = Js.replace_ext (stem +:+ ext2))
  /\ (forall s, Js.replace_ext (Js.replace_ext s) = Js.replace_ext s).
Proof.
  split; [|split; [|split]].
  - intros f H. unfold outName.
    destruct (ReplaceFacts.replace_ext_cases (Path.basename f)) as [[_ Hr]|[Hy _]];
      [exact Hr|congruence].
  - intros f H. unfold outName.
    destruct (ReplaceFacts.replace_ext_cases (Path.basename f))
      as [[Hn _]|[_ (stem & ext & _ & _ & Hr)]]; [congruence|].
    exists stem. exact Hr.
  - intros stem ext1 ext2 H1 H2.
    rewrite !NameFacts.replace_ext_matching by assumption. reflexivity.
  - intros s.
    destruct (ReplaceFacts.replace_ext_cases s) as [[_ Hr]|[_ (stem & ext & _ & _ & Hr)]].
    + rewrite Hr. exact Hr.
    + rewrite Hr. apply ReplaceFacts.replace_ext_png.
Qed.

Lemma output_name_witness :
  outName "/w/notes/a.mmd.bak" = Path.basename "/w/notes/a.mmd.bak"
  /\ (exists stem, outName "/w/diagrams/a.Mermaid" = stem +:+ ".png")
  /\ Js.replace_ext ("a" +:+ ".mmd") = Js.replace_ext ("a" +:+ ".TXT").
Proof.
  destruct output_name_cases as (Hkeep & Hpng & Hsame & _).
  split; [|split].
  - apply Hkeep. reflexivity.
  - apply Hpng. reflexivity.
  - apply Hsame; cbn; auto.
Defined.

(** ** The output path (script lines 54-58) *)

Module PathFacts.

Lemma string_of_list_ascii_snoc (l : list ascii) (c : ascii) :
  string_of_list_ascii (l ++ [c]) = string_of_list_ascii l +:+ String c "".
Proof.
  induction l as [|x l IH]; [reflexivity|].
  cbn [app string_of_list_ascii]. rewrite IH. reflexivity.
Qed.

Lemma append_assoc (a b c : string) : (a +:+ b) +:+ c = a +:+ (b +:+ c).
Proof.
  induction a as [|x a IH]; [reflexivity|].
  rewrite !NameFacts.append_cons, IH. reflexivity.
Qed.

Lemma append_empty (a : string) : a +:+ "" = a.
Proof.
  induction a as [|x a IH]; [reflexivity|]. rewrite NameFacts.append_cons, IH. reflexivity.
Qed.

Lemma slash_append (x : string) : "/" +:+ x = String "/" x.
Proof. reflexivity. Qed.

(** A piece without the separator is read to its end. *)
Lemma split_from_piece (sep : ascii) (cur : list ascii) (a : string) :
  Js.no_char sep a = true ->
  Js.split_from sep cur a = [string_of_list_ascii (rev cur) +:+ a]
  /\ forall b,
       Js.split_from sep cur (a +:+ String sep b)
       = (string_of_list_ascii (rev cur) +:+ a) :: Js.split_from sep [] b.
Proof.
  revert cur. induction a as [|x a IH]; intros cur H.
  - rewrite append_empty. split; [reflexivity|]. intros b.
    rewrite NameFacts.append_nil. cbn [Js.split_from]. rewrite Ascii.eqb_refl. reflexivity.
  - cbn [Js.no_char] in H. apply andb_true_iff in H as [Hx Ha].
    apply negb_true_iff in Hx.
    destruct (IH (x :: cur) Ha) as [IH1 IH2].
    assert (E : string_of_list_ascii (rev (x :: cur)) +:+ a
                = string_of_list_ascii (rev cur) +:+ String x a).
    { cbn [rev]. rewrite string_of_list_ascii_snoc, append_assoc. reflexivity. }
    split.
    + cbn [Js.split_from]. rewrite Hx, IH1, E. reflexivity.
    + intros b. rewrite NameFacts.append_cons. cbn [Js.split_from].
      rewrite Hx, IH2, E. reflexivity.
Qed.

Lemma plain_no_slash (s : string) : plain s = true -> Js.no_char "/" s = true.
Proof. unfold plain. intros H. apply andb_true_iff in H as [_ H]. exact H. Qed.

(** Splitting what [join] made gives the segments back. *)
Lemma split_join (x : string) (segs : list string) :
  forallb plain (x :: segs) = true ->
  Js.split "/" (Js.join "/" (x :: segs)) = x :: segs.
Proof.
  revert x. induction segs as [|y segs IH]; intros x H.
  - cbn in H. apply andb_true_iff in H as [Hx _]. cbn [Js.join]. unfold Js.split.
    rewrite (proj1 (split_from_piece "/" [] x (plain_no_slash _ Hx))). reflexivity.
  - cbn [forallb] in H. apply andb_true_iff in H as [Hx Hr].
    change (Js.join "/" (x :: y :: segs)) with (x +:+ "/" +:+ Js.join "/" (y :: segs)).
    unfold Js.split. rewrite slash_append.
    rewrite (proj2 (split_from_piece "/" [] x (plain_no_slash _ Hx))).
    fold (Js.split "/" (Js.join "/" (y :: segs))). rewrite (IH y Hr). reflexivity.
Qed.

Lemma plain_cases (s : string) :
  plain s = true ->
  String.eqb s "" = false /\ String.eqb s "." = false /\ String.eqb s ".." = false.
Proof.
  unfold plain. intros H. apply andb_true_iff in H as [H _].
  apply negb_true_iff in H. apply orb_false_iff in H as [H H3].
  apply orb_false_iff in H as [H1 H2]. auto.
Qed.

(** Names pass through the normalisation as they are. *)
Lemma normalize_segs_plain (allow : bool) (acc segs : list string) :
  forallb plain segs = true ->
  Path.normalize_segs allow acc segs = (rev acc ++ segs)%list.
Proof.
  revert acc. induction segs as [|x segs IH]; intros acc H.
  - cbn. rewrite app_nil_r. reflexivity.
  - cbn [forallb] in H. apply andb_true_iff in H as [Hx Hr].
    destruct (plain_cases x Hx) as (H1 & H2 & H3).
    cbn [Path.normalize_segs]. rewrite H1, H2, H3. cbn [orb].
    rewrite (IH (x :: acc) Hr). cbn [rev]. rewrite <- app_assoc. reflexivity.
Qed.

Lemma split_from_no_slash (cur : list ascii) (s : string) :
  forallb (fun x => negb (Ascii.eqb x "/")) cur = true ->
  forallb (Js.no_char "/") (Js.split_from "/" cur s) = true.
Proof.
  assert (Hcur : forall l, forallb (fun x => negb (Ascii.eqb x "/")) l = true ->
                           Js.no_char "/" (string_of_list_ascii (rev l)) = true).
  { intros l Hl. rewrite NameFacts.no_char_forallb, list_ascii_of_string_of_list_ascii.
    rewrite forallb_forall in *. intros x Hx. apply Hl, in_rev, Hx. }
  revert cur. induction s as [|c s IH]; intros cur H.
  - cbn. rewrite (Hcur cur H). reflexivity.
  - cbn [Js.split_from]. destruct (Ascii.eqb c "/") eqn:Hc.
    + cbn [forallb]. rewrite (Hcur cur H). apply (IH []). reflexivity.
    + apply IH. cbn [forallb]. rewrite Hc, H. reflexivity.
Qed.

(** What the normalisation keeps are names. *)
Lemma normalize_segs_names (acc segs : list string) :
  forallb plain acc = true ->
  forallb (Js.no_char "/") segs = true ->
  forallb plain (Path.normalize_segs false acc segs) = true.
Proof.
  revert acc. induction segs as [|x segs IH]; intros acc Hacc H.
  - cbn [Path.normalize_segs]. rewrite forallb_forall in *.
    intros y Hy. apply Hacc, in_rev, Hy.
  - cbn [forallb] in H. apply andb_true_iff in H as [Hx Hr].
    cbn [Path.normalize_segs].
    destruct (String.eqb x "" || String.eqb x ".") eqn:E1; [apply IH; assumption|].
    destruct (String.eqb x "..") eqn:E2.
    + destruct acc as [|a acc]; [apply IH; [reflexivity|assumption]|].
      cbn [forallb] in Hacc. apply andb_true_iff in Hacc as [Ha Hacc].
      destruct (plain_cases a Ha) as (_ & _ & ->). apply IH; assumption.
    + apply IH; [|assumption]. cbn [forallb]. rewrite Hacc, andb_true_r.
      unfold plain. apply orb_false_iff in E1 as [-> ->]. rewrite E2, Hx. reflexivity.
Qed.

(** [path.resolve] gives a list of names. *)
Lemma resolve_segs_names (cwd p : string) :
  forallb plain (Path.resolve_segs cwd p) = true.
Proof.
  unfold Path.resolve_segs. apply normalize_segs_names; [reflexivity|].
  apply (split_from_no_slash []). reflexivity.
Qed.

(** Resolving a resolved path gives the same names. *)
Lemma resolve_segs_of_segs (cwd : string) (segs : list string) :
  forallb plain segs = true ->
  Path.resolve_segs cwd (Path.of_segs segs) = segs.
Proof.
  intros H. unfold Path.resolve_segs, Path.of_segs.
  change ("/" +:+ ?x) with (String "/" x). cbn [Path.is_absolute Js.starts_with_char].
  rewrite Ascii.eqb_refl. unfold Js.split. cbn [Js.split_from]. rewrite Ascii.eqb_refl.
  cbn [rev string_of_list_ascii Path.normalize_segs String.eqb orb].
  destruct segs as [|x segs]; [reflexivity|].
  fold (Js.split "/" (Js.join "/" (x :: segs))). rewrite (split_join x segs H).
  apply (normalize_segs_plain false [] (x :: segs) H).
Qed.

Lemma join_snoc (x : string) (segs : list string) (name : string) :
  Js.join "/" ((x :: segs) ++ [name]) = Js.join "/" (x :: segs) +:+ "/" +:+ name.
Proof.
  revert x. induction segs as [|y segs IH]; intros x; [reflexivity|].
  change (Js.join "/" ((x :: y :: segs) ++ [name]))
    with (x +:+ "/" +:+ Js.join "/" ((y :: segs) ++ [name])).
  rewrite IH.
  change (Js.join "/" (x :: y :: segs)) with (x +:+ "/" +:+ Js.join "/" (y :: segs)).
  rewrite !append_assoc. reflexivity.
Qed.

Lemma ends_with_char_app (c : ascii) (a b : string) :
  b <> "" -> Js.ends_with_char c (a +:+ b) = Js.ends_with_char c b.
Proof.
  intros Hb. induction a as [|x a IH]; [reflexivity|].
  rewrite NameFacts.append_cons. cbn [Js.ends_with_char].
  destruct (a +:+ b) eqn:E; [|exact IH].
  destruct a; [rewrite NameFacts.append_nil in E; contradiction|discriminate].
Qed.

Lemma no_char_ends_with (c : ascii) (s : string) :
  Js.no_char c s = true -> Js.ends_with_char c s = false.
Proof.
  induction s as [|x s IH]; [reflexivity|]. cbn [Js.no_char]. intros H.
  apply andb_true_iff in H as [Hx Hs]. apply negb_true_iff in Hx.
  cbn [Js.ends_with_char]. destruct s; [exact Hx|apply IH, Hs].
Qed.

Lemma join_not_empty (x : string) (segs : list string) :
  x <> "" -> Js.join "/" (x :: segs) <> "".
Proof.
  intros Hx. destruct segs as [|y segs]; [exact Hx|].
  change (Js.join "/" (x :: y :: segs)) with (x +:+ "/" +:+ Js.join "/" (y :: segs)).
  destruct x; [contradiction|discriminate].
Qed.

(** [path.join] of a resolved directory and a name is the directory's path
    followed by the name. *)
Lemma join_of_segs (segs : list string) (name : string) :
  forallb plain segs = true -> plain name = true ->
  Path.join (Path.of_segs segs) name = Path.of_segs (segs ++ [name]).
Proof.
  intros Hsegs Hname.
  destruct (plain_cases name Hname) as (Hne & _ & _).
  assert (Hn0 : name <> "") by (intros ->; discriminate).
  assert (Hall : forallb plain (segs ++ [name]) = true).
  { rewrite forallb_app, Hsegs. cbn. rewrite Hname. reflexivity. }
  unfold Path.join. rewrite Hne.
  unfold Path.of_segs at 1. change ("/" +:+ ?x) with (String "/" x).
  cbn [String.eqb Ascii.eqb]. 
  replace (String.eqb (String "/" (Js.join "/" segs)) "") with false by reflexivity.
  change (Path.normalize (String "/" (Js.join "/" segs) +:+ String "/" name)
          = Path.of_segs (segs ++ [name])).
  set (p := String "/" (Js.join "/" segs) +:+ String "/" name).
  unfold Path.normalize.
  assert (Hp : p = String "/" (Js.join "/" segs +:+ String "/" name)) by reflexivity.
  assert (Hsplit : Path.normalize_segs false [] (Js.split "/" p) = (segs ++ [name])%list).
  { rewrite Hp. unfold Js.split. cbn [Js.split_from]. rewrite Ascii.eqb_refl.
    cbn [rev string_of_list_ascii Path.normalize_segs String.eqb orb].
    destruct segs as [|x segs].
    - cbn [Js.join]. rewrite NameFacts.append_nil. cbn [Js.split_from].
      rewrite Ascii.eqb_refl.
      cbn [rev string_of_list_ascii Path.normalize_segs String.eqb orb].
      rewrite (proj1 (split_from_piece "/" [] name (plain_no_slash _ Hname))).
      apply (normalize_segs_plain false [] [name]). exact Hall.
    - change (String "/" name) with ("/" +:+ name). rewrite <- join_snoc.
      fold (Js.split "/" (Js.join "/" ((x :: segs) ++ [name]))).
      change ((x :: segs) ++ [name])%list with (x :: (segs ++ [name]))%list in *.
      rewrite (split_join x (segs ++ [name]) Hall).
      apply (normalize_segs_plain false [] _ Hall). }
  assert (Hpe : String.eqb p "" = false) by reflexivity.
  assert (Habs : Path.is_absolute p = true)
    by (rewrite Hp; reflexivity).
  assert (Htr : Js.ends_with_char "/" p = false).
  { unfold p. rewrite ends_with_char_app by discriminate.
    cbn [Js.ends_with_char]. destruct name as [|c name]; [contradiction|].
    apply (no_char_ends_with "/" (String c name)), plain_no_slash, Hname. }
  rewrite Hpe, Habs, Htr. cbn [negb]. rewrite Hsplit.
  assert (Hbody : String.eqb (Js.join "/" (segs ++ [name])) "" = false).
  { apply String.eqb_neq. destruct segs as [|x segs]; [exact Hn0|].
    apply (join_not_empty x (segs ++ [name])).
    cbn [forallb] in Hsegs. apply andb_true_iff in Hsegs as [Hx _].
    destruct (plain_cases x Hx) as (Hx0 & _). intros ->. discriminate. }
  rewrite Hbody. reflexivity.
Qed.

(** The base name never contains a slash. *)
Lemma basename_no_slash (p : string) : Js.no_char "/" (Path.basename p) = true.
Proof.
  unfold Path.basename.
  rewrite NameFacts.no_char_forallb, list_ascii_of_string_of_list_ascii.
  rewrite forallb_forall. intros x Hx. apply in_rev in Hx.
  induction (Path.drop_slashes (rev (list_ascii_of_string p))) as [|c l IH];
    [inversion Hx|].
  cbn [Path.take_to_slash] in Hx. destruct (Ascii.eqb c "/") eqn:Hc; [inversion Hx|].
  destruct Hx as [<-|Hx]; [rewrite Hc; reflexivity|apply IH, Hx].
Qed.

Lemma basename_of_segs (segs : list string) (name : string) :
  plain name = true -> Path.basename (Path.of_segs (segs ++ [name])) = name.
Proof.
  intros Hname. destruct (plain_cases name Hname) as (Hne & _ & _).
  assert (Hn0 : name <> "") by (intros ->; discriminate).
  pose proof (plain_no_slash _ Hname) as Hns.
  unfold Path.of_segs. destruct segs as [|x segs].
  - apply (NameFacts.basename_in_dir "" name Hn0 Hns).
  - rewrite join_snoc, <- append_assoc.
    apply (NameFacts.basename_in_dir _ name Hn0 Hns).
Qed.

(** A name that ends in [.png] is a file name when it has no slash. *)
Lemma plain_png (stem : string) :
  Js.no_char "/" stem = true -> plain (stem +:+ ".png") = true.
Proof.
  intros H. unfold plain. rewrite NameFacts.no_char_app, H, andb_true_r.
  assert (Hlen : 4 <= String.length (stem +:+ ".png")).
  { rewrite NameFacts.length_append. cbn [String.length]. lia. }
  destruct (String.eqb (stem +:+ ".png") "") eqn:E1;
    [apply String.eqb_eq in E1; rewrite E1 in Hlen; cbn in Hlen; lia|].
  destruct (String.eqb (stem +:+ ".png") ".") eqn:E2;
    [apply String.eqb_eq in E2; rewrite E2 in Hlen; cbn in Hlen; lia|].
  destruct (String.eqb (stem +:+ ".png") "..") eqn:E3;
    [apply String.eqb_eq in E3; rewrite E3 in Hlen; cbn in Hlen; lia|].
  reflexivity.
Qed.

Lemma outName_plain (f : string) :
  plain (Path.basename f) = true -> plain (outName f) = true.
Proof.
  intros H. unfold outName.
  destruct (ReplaceFacts.replace_ext_cases (Path.basename f))
    as [[_ ->]|[_ (stem & ext & E & _ & ->)]]; [exact H|].
  apply plain_png. pose proof (basename_no_slash f) as Hb.
  rewrite E, NameFacts.no_char_app in Hb. apply andb_true_iff in Hb as [Hb _]. exact Hb.
Qed.

End PathFacts.

Section OutputPath.

Context (cfg : Config).

(** X10: the base name of a path never contains a slash; and for an input
    whose base name is a file name (not empty, not [.] or [..]) the path
    the image is written to is the resolved output directory followed by
    one more segment, the output name: the image lies directly in the
    directory that [ensureDir] is called on, the base name of its path is
    the output name, and resolving the path again gives the same place. *)
Theorem image_lies_directly_in_the_output_directory (cwd f : string) :
  Js.no_char "/" (Path.basename f) = true
  /\ (plain (Path.basename f) = true ->
      let dir := Path.resolve_segs cwd (OUTPUT_DIR cfg) in
      plain (outName f) = true
      /\ outPath cfg cwd f = Path.of_segs (dir ++ [outName f])
      /\ Path.resolve_segs cwd (outPath cfg cwd f) = (dir ++ [outName f])%list
      /\ Fs.parent (Path.resolve_segs cwd (outPath cfg cwd f))
         = Path.resolve_segs cwd (Path.resolve cwd (OUTPUT_DIR cfg))
      /\ Path.basename (outPath cfg cwd f) = outName f
      /\ Path.resolve cwd (outPath cfg cwd f) = outPath cfg cwd f).
Proof.
  split; [apply PathFacts.basename_no_slash|]. intros Hb dir.
  pose proof (PathFacts.outName_plain f Hb) as Hn.
  pose proof (PathFacts.resolve_segs_names cwd (OUTPUT_DIR cfg)) as Hd.
  fold dir in Hd.
  assert (Hall : forallb plain (dir ++ [outName f]) = true).
  { rewrite forallb_app, Hd. cbn. rewrite Hn. reflexivity. }
  assert (Hp : outPath cfg cwd f = Path.of_segs (dir ++ [outName f])).
  { unfold outPath, Path.resolve. fold dir. apply PathFacts.join_of_segs; assumption. }
  assert (Hr : Path.resolve_segs cwd (outPath cfg cwd f) = (dir ++ [outName f])%list).
  { rewrite Hp. apply PathFacts.resolve_segs_of_segs, Hall. }
  repeat split; try assumption.
  - rewrite Hr. unfold Fs.parent, Path.resolve. rewrite removelast_last. fold dir.
    symmetry. apply PathFacts.resolve_segs_of_segs, Hd.
  - rewrite Hp. apply PathFacts.basename_of_segs, Hn.
  - unfold Path.resolve at 1. rewrite Hr. symmetry. exact Hp.
Qed.

End OutputPath.

(** For [diagrams/a.mmd] and the output directory [out] in [/repo]. *)
Lemma image_path_witness :
  plain (Path.basename "/repo/diagrams/a.mmd") = true
  /\ Path.resolve_segs "/repo" (outPath Demo.cfg_out "/repo" "/repo/diagrams/a.mmd")
     = ["repo"; "out"; "a.png"].
Proof.
  split; [reflexivity|].
  destruct (proj2 (image_lies_directly_in_the_output_directory
                     Demo.cfg_out "/repo" "/repo/diagrams/a.mmd") eq_refl)
    as (_ & _ & H & _).
  exact H.
Defined.

(** ** The file system after a run *)

Module KeptFacts.

Lemma kept_refl (fs : gmap (list string) Fs.Node) : kept fs fs.
Proof. split; eauto. Qed.

Lemma kept_trans (a b c : gmap (list string) Fs.Node) : kept a b -> kept b c -> kept a c.
Proof.
  intros [D1 F1] [D2 F2]. split; [auto|].
  intros q r w d H. destruct (F1 q r w d H) as (d1 & H1). exact (F2 q r w d1 H1).
Qed.

Lemma kept_make_dirs (fs : gmap (list string) Fs.Node) (D : list string) :
  mkdir_ok D fs = true -> kept fs (Fs.make_dirs fs D).
Proof.
  intros Hok. split.
  - intros q Hq. apply is_dir_make_dirs. right. exact Hq.
  - intros q r w d Hq. exists d. rewrite FsFacts.node_make_dirs.
    destruct (decide (q ∈ Fs.prefixes D)) as [Hin|]; [|exact Hq].
    pose proof (proj1 (mkdir_ok_spec D fs) Hok q Hin) as Hf.
    unfold Fs.is_file in Hf. rewrite Hq in Hf. discriminate.
Qed.

Lemma kept_writeFile (cwd : string) (fs : gmap (list string) Fs.Node)
    (path data : string) :
  kept fs (snd (Fs.writeFile cwd fs path data)).
Proof.
  destruct (FsFacts.writeFile_cases cwd fs path data)
    as [->|[(HP & r0 & d0 & Hn & ->)|(HP & Hn & _ & ->)]]; [apply kept_refl| |].
  - split.
    + intros q Hq. unfold Fs.is_dir in *. rewrite (FsFacts.node_insert _ _ _ _ HP).
      destruct (decide (q = _)) as [->|]; [rewrite Hn in Hq; discriminate|exact Hq].
    + intros q r w d Hq. rewrite (FsFacts.node_insert _ _ _ _ HP).
      destruct (decide (q = _)) as [->|]; [|eauto].
      rewrite Hn in Hq. injection Hq as <- <- <-. eauto.
  - split.
    + intros q Hq. unfold Fs.is_dir in *. rewrite (FsFacts.node_insert _ _ _ _ HP).
      destruct (decide (q = _)) as [->|]; [rewrite Hn in Hq; discriminate|exact Hq].
    + intros q r w d Hq. rewrite (FsFacts.node_insert _ _ _ _ HP).
      destruct (decide (q = _)) as [->|]; [|eauto].
      rewrite Hn in Hq. discriminate.
Qed.

Lemma kept_is_file (fs fs' : gmap (list string) Fs.Node) (q : list string) :
  kept fs fs' -> Fs.is_file fs q = true -> Fs.is_file fs' q = true.
Proof.
  intros [_ HF] H. unfold Fs.is_file in *.
  destruct (Fs.node fs q) as [[r w d|]|] eqn:E; try discriminate.
  destruct (HF q r w d E) as (d' & ->). reflexivity.
Qed.

Lemma kept_dir_exists (fs fs' : gmap (list string) Fs.Node) (D : list string) :
  kept fs fs' -> Fs.dir_exists fs D = true -> Fs.dir_exists fs' D = true.
Proof.
  intros [HD _]. unfold Fs.dir_exists. rewrite !forallb_forall. auto.
Qed.

Lemma dir_exists_make_dirs (fs : gmap (list string) Fs.Node) (D : list string) :
  Fs.dir_exists (Fs.make_dirs fs D) D = true.
Proof.
  unfold Fs.dir_exists. rewrite forallb_forall. intros q Hq.
  apply is_dir_make_dirs. left. apply list_elem_of_In, Hq.
Qed.

(** A write changes the node at its own path only. *)
Lemma node_writeFile (cwd : string) (fs : gmap (list string) Fs.Node)
    (path data : string) (q : list string) :
  Path.resolve_segs cwd path <> q ->
  Fs.node (snd (Fs.writeFile cwd fs path data)) q = Fs.node fs q.
Proof.
  intros Hne.
  destruct (FsFacts.writeFile_cases cwd fs path data)
    as [->|[(HP & r0 & d0 & _ & ->)|(HP & _ & _ & ->)]]; [reflexivity| |];
    rewrite (FsFacts.node_insert _ _ _ _ HP);
    (destruct (decide (q = _)) as [->|]; [contradiction|reflexivity]).
Qed.

End KeptFacts.

Section RunFs.

Context {Dom : Type} (L : Libs Dom) (cfg : Config).


(** A property of two states that holds of a state and itself, passes
    along a chain of states, and holds across each conversion of a matched
    file, each printed line and the call of the locator, holds between the
    state a run starts in and the state it ends in. *)
Lemma run_induction (R : World Dom -> World Dom -> Prop) (w0 : World Dom) :
  (forall w, R w w) ->
  (forall a b c, R a b -> R b c -> R a c) ->
  (forall f w, In f (matched L cfg w0) -> R w (snd (renderOne L cfg f w))) ->
  (forall s line w, R w (printed s line w)) ->
  (forall (r : Result (list string)) w,
      R w (called (CallGlob [INPUT_PATTERN cfg] fg_options) r w)) ->
  R w0 (snd (run L cfg w0)).
Proof.
  intros Hrefl Htrans Hconv Hprint Hglob.
  assert (Hbody : forall f t w, In f (matched L cfg w0) ->
                                R w (snd (loop_body L cfg f t w))).
  { intros f t w Hin.
    destruct (renderOne L cfg f w) as [[out|e] w'] eqn:H.
    - rewrite (loop_body_ok L cfg _ _ t _ _ H). cbn [snd].
      apply (Htrans _ w'); [|apply Hprint].
      replace w' with (snd (renderOne L cfg f w)) by (rewrite H; reflexivity).
      apply Hconv, Hin.
    - rewrite (loop_body_throw L cfg _ t _ _ _ H). cbn [snd].
      apply (Htrans _ w'); [|apply Hprint].
      replace w' with (snd (renderOne L cfg f w)) by (rewrite H; reflexivity).
      apply Hconv, Hin. }
  assert (Hloop : forall files t w,
             (forall f, In f files -> In f (matched L cfg w0)) ->
             R w (snd (for_of L cfg files t w))).
  { induction files as [|f rest IH]; intros t w Hsub; [apply Hrefl|].
    destruct (loop_body_total L cfg f t w) as (t1 & w1 & Hb & _).
    rewrite (for_of_cons L cfg _ _ _ _ _ _ Hb).
    apply (Htrans _ w1).
    - replace w1 with (snd (loop_body L cfg f t w)) by (rewrite Hb; reflexivity).
      apply Hbody, Hsub. left. reflexivity.
    - apply IH. intros g Hg. apply Hsub. right. exact Hg. }
  unfold matched in *. unfold run.
  destruct (lib_fg L [INPUT_PATTERN cfg] fg_options (w_cwd w0) (w_fs w0))
    as [files|e] eqn:H.
  - destruct files as [|f files].
    + rewrite (main_no_match L cfg w0 H). cbn [snd].
      eapply Htrans; [apply Hglob|apply Hprint].
    + destruct (main_some_match L cfg w0 (f :: files) H) as (t & w' & Hfor & Hm);
        [discriminate|].
      rewrite Hm. cbn [snd].
      apply (Htrans _ w'); [|apply Hprint].
      replace w' with (snd (for_of L cfg (f :: files) {| ok := 0; fail := 0 |}
                              (printed Stdout
                                 ("Rendering " +:+ nat_to_string (length (f :: files))
                                  +:+ " Mermaid file(s) to PNG (no browser)...")
                                 (called (CallGlob [INPUT_PATTERN cfg] fg_options)
                                    (Ok (f :: files)) w0))))
        by (rewrite Hfor; reflexivity).
      eapply Htrans; [apply Hglob|]. eapply Htrans; [apply Hprint|].
      apply Hloop. auto.
  - unfold main, bind, fg. rewrite H. cbn [snd fst].
    eapply Htrans; [apply Hglob|apply Hprint].
Qed.

(** The file system after one conversion that returned. *)
Lemma renderOne_ok_fs (f out : string) (w : World Dom) :
  fst (renderOne L cfg f w) = Ok out ->
  let D := Path.resolve_segs (w_cwd w) (Path.resolve (w_cwd w) (OUTPUT_DIR cfg)) in
  out = outPath cfg (w_cwd w) f
  /\ mkdir_ok D (w_fs w) = true
  /\ exists png,
       is_ok (fst (Fs.writeFile (w_cwd w) (Fs.make_dirs (w_fs w) D) out png)) = true
       /\ w_fs (snd (renderOne L cfg f w))
          = snd (Fs.writeFile (w_cwd w) (Fs.make_dirs (w_fs w) D) out png).
Proof.
  rewrite renderOne_unfold. cbv zeta.
  destruct (Fs.readFile (w_cwd w) (w_fs w) f) as [code|e]; [|discriminate].
  destruct (lib_render L (MERMAID_THEME cfg) (w_dom w)
              (diagramId f (lib_now L (w_ticks w))) code) as [[svg|e] d'];
    cbn [fst snd]; [|discriminate].
  destruct (lib_resvg L svg) as [png|e]; [|discriminate].
  destruct (FsFacts.mkdir_recursive (w_cwd w) (w_fs w)
              (Path.resolve (w_cwd w) (OUTPUT_DIR cfg))) as [Hok Hfs].
  destruct (fst (Fs.mkdir (w_cwd w) (w_fs w) (Path.resolve (w_cwd w) (OUTPUT_DIR cfg)) true))
    as [[]|e] eqn:Hmk; [|discriminate].
  cbn [is_ok] in Hok. symmetry in Hok. rewrite (Hfs Hok).
  destruct (fst (Fs.writeFile (w_cwd w) _ _ png)) as [[]|e] eqn:Hwr; [|discriminate].
  cbn [fst snd]. intros E. injection E as <-.
  split; [reflexivity|]. split; [exact Hok|]. exists png. world_simpl.
  split; [rewrite Hwr; reflexivity|reflexivity].
Qed.

Lemma renderOne_kept (f : string) (w : World Dom) :
  kept (w_fs w) (w_fs (snd (renderOne L cfg f w))).
Proof.
  destruct (renderOne_fs L cfg f w) as [->|(Hok & png & ->)]; [apply KeptFacts.kept_refl|].
  eapply KeptFacts.kept_trans;
    [apply KeptFacts.kept_make_dirs, Hok|apply KeptFacts.kept_writeFile].
Qed.

(** X12: a run loses nothing: every directory there at the start is a
    directory at the end, and every file there at the start is a file at the
    end with the permissions it had; the working directory is the same. *)
Theorem run_deletes_nothing (w : World Dom) :
  kept (w_fs w) (w_fs (snd (run L cfg w)))
  /\ w_cwd (snd (run L cfg w)) = w_cwd w.
Proof.
  apply (run_induction
           (fun a b => kept (w_fs a) (w_fs b) /\ w_cwd b = w_cwd a)).
  - intros a. split; [apply KeptFacts.kept_refl|reflexivity].
  - intros a b c [K1 C1] [K2 C2]. split; [exact (KeptFacts.kept_trans _ _ _ K1 K2)|].
    congruence.
  - intros f a _. split; [apply renderOne_kept|].
    apply (renderOne_effect L cfg f a).
  - intros s line a. split; [apply KeptFacts.kept_refl|reflexivity].
  - intros r a. split; [apply KeptFacts.kept_refl|reflexivity].
Qed.

(** X13: a run changes the file system only at the output directory, the
    directories above it, and the output paths of the matched files: every
    other path holds at the end what it held at the start.  An input file
    is changed only if it is itself the output path of a matched file. *)
Theorem run_changes_only_the_output_places (w : World Dom) (q : list string) :
  may_change cfg (w_cwd w) (matched L cfg w) q = false ->
  Fs.node (w_fs (snd (run L cfg w))) q = Fs.node (w_fs w) q.
Proof.
  intros Hq. unfold may_change in Hq. apply orb_false_iff in Hq as [HD Hout].
  apply bool_decide_eq_false in HD.
  assert (Hfiles : forall g, In g (matched L cfg w) ->
                             Path.resolve_segs (w_cwd w) (outPath cfg (w_cwd w) g) <> q).
  { intros g Hg E.
    assert (existsb (fun g => bool_decide
                                (Path.resolve_segs (w_cwd w) (outPath cfg (w_cwd w) g) = q))
              (matched L cfg w) = true) as Ht; [|congruence].
    apply existsb_exists. exists g. split; [exact Hg|].
    apply bool_decide_eq_true. exact E. }
  apply (run_induction
           (fun a b => w_cwd a = w_cwd w ->
                       w_cwd b = w_cwd w /\ Fs.node (w_fs b) q = Fs.node (w_fs a) q));
    try reflexivity.
  - intros a. auto.
  - intros a b c H1 H2 Ha. destruct (H1 Ha) as [Hb E1]. destruct (H2 Hb) as [Hc E2].
    split; [exact Hc|congruence].
  - intros f a Hf Ha.
    split; [rewrite <- Ha; apply (renderOne_effect L cfg f a)|].
    destruct (renderOne_fs L cfg f a) as [->|(Hok & png & ->)]; [reflexivity|].
    rewrite Ha. rewrite KeptFacts.node_writeFile by (apply Hfiles, Hf).
    rewrite FsFacts.node_make_dirs.
    destruct (decide (q ∈ _)); [contradiction|reflexivity].
  - intros s line a Ha. auto.
  - intros r a Ha. auto.
Qed.

(** X14: when a [writeFile] call of the run returned, then at the end of
    the run there is a regular file at the path it was called with, and the
    output directory exists with the directories above it. *)
Theorem written_images_are_on_disk (w : World Dom) (p : string) :
  has_written p (calls_since w (snd (run L cfg w))) = true ->
  Fs.is_file (w_fs (snd (run L cfg w))) (Path.resolve_segs (w_cwd w) p) = true
  /\ Fs.dir_exists (w_fs (snd (run L cfg w)))
       (Path.resolve_segs (w_cwd w) (Path.resolve (w_cwd w) (OUTPUT_DIR cfg))) = true.
Proof.
  set (D := Path.resolve_segs (w_cwd w) (Path.resolve (w_cwd w) (OUTPUT_DIR cfg))).
  assert (H : w_cwd w = w_cwd w ->
              w_cwd (snd (run L cfg w)) = w_cwd w
              /\ kept (w_fs w) (w_fs (snd (run L cfg w)))
              /\ exists cs,
                   w_calls (snd (run L cfg w)) = (w_calls w ++ cs)%list
                   /\ (has_written p cs = true ->
                       Fs.is_file (w_fs (snd (run L cfg w)))
                         (Path.resolve_segs (w_cwd w) p) = true
                       /\ Fs.dir_exists (w_fs (snd (run L cfg w))) D = true)).
  { apply (run_induction
             (fun a b => w_cwd a = w_cwd w ->
                         w_cwd b = w_cwd w
                         /\ kept (w_fs a) (w_fs b)
                         /\ exists cs,
                              w_calls b = (w_calls a ++ cs)%list
                              /\ (has_written p cs = true ->
                                  Fs.is_file (w_fs b) (Path.resolve_segs (w_cwd w) p) = true
                                  /\ Fs.dir_exists (w_fs b) D = true))).
    - intros a Ha. split; [exact Ha|]. split; [apply KeptFacts.kept_refl|].
      exists []. rewrite app_nil_r. split; [reflexivity|discriminate].
    - intros a b c H1 H2 Ha.
      destruct (H1 Ha) as (Hb & K1 & cs1 & E1 & W1).
      destruct (H2 Hb) as (Hc & K2 & cs2 & E2 & W2).
      split; [exact Hc|]. split; [exact (KeptFacts.kept_trans _ _ _ K1 K2)|].
      exists (cs1 ++ cs2)%list. split; [rewrite E2, E1, app_assoc; reflexivity|].
      unfold has_written. rewrite existsb_app. intros Hw.
      apply orb_true_iff in Hw as [Hw|Hw]; [|exact (W2 Hw)].
      destruct (W1 Hw) as [Hf Hd].
      split; [exact (KeptFacts.kept_is_file _ _ _ K2 Hf)
             |exact (KeptFacts.kept_dir_exists _ _ _ K2 Hd)].
    - intros f a _ Ha.
      destruct (renderOne_effect L cfg f a) as (Hcwd & _ & cs & Hcs & Hshape & _).
      split; [congruence|]. split; [apply renderOne_kept|].
      exists cs. split; [exact Hcs|]. intros Hw.
      assert (Hok : is_ok (fst (renderOne L cfg f a)) = true
                    /\ p = outPath cfg (w_cwd a) f).
      { inversion Hshape as [E1 E2|id code E1 E2|id code svg E1 E2
                            |id code svg E1 E2|id code svg png b E1 E2];
          rewrite <- E2 in Hw; try (cbn in Hw; discriminate).
        destruct (is_ok (fst (renderOne L cfg f a))); cbn in Hw; [|discriminate].
        rewrite orb_false_r in Hw. apply String.eqb_eq in Hw. split; [reflexivity|]. symmetry. exact Hw. }
      destruct Hok as [Hok Hp].
      destruct (fst (renderOne L cfg f a)) as [out|e] eqn:Hr; [|discriminate].
      destruct (renderOne_ok_fs f out a Hr) as (Hout & Hmk & png & Hwr & Hfs).
      rewrite Ha in *. fold D in Hmk, Hwr, Hfs. rewrite Hfs.
      split.
      + pose proof (FsFacts.writeFile_ok_data _ _ _ _ Hwr) as Hd.
        rewrite Hp, <- Hout. unfold Fs.is_file. unfold Fs.data_at in Hd.
        destruct (Fs.node _ _) as [[? ? ?|]|]; [reflexivity|discriminate|discriminate].
      + apply (KeptFacts.kept_dir_exists (Fs.make_dirs (w_fs a) D));
          [apply KeptFacts.kept_writeFile|apply KeptFacts.dir_exists_make_dirs].
    - intros s line a Ha. split; [exact Ha|]. split; [apply KeptFacts.kept_refl|].
      exists []. world_simpl. rewrite app_nil_r. split; [reflexivity|discriminate].
    - intros r a Ha. split; [exact Ha|]. split; [apply KeptFacts.kept_refl|].
      exists [(CallGlob [INPUT_PATTERN cfg] fg_options, is_ok r)].
      split; [reflexivity|]. cbn. destruct (is_ok r); discriminate. }
  destruct (H eq_refl) as (_ & _ & cs & Hcs & Hw).
  unfold calls_since. rewrite Hcs, drop_app_length. exact Hw.
Qed.

End RunFs.


(** X13, on the tree of the specification's example: the source [a.mmd]
    is as it was after the run. *)
Lemma output_places_witness :
  may_change Demo.default_cfg "/w"
    (matched (Demo.libs Demo.steady_clock) Demo.default_cfg (Demo.world "/w" Demo.fs1))
    ["w"; "diagrams"; "a.mmd"] = false
  /\ Fs.node (w_fs (snd (run (Demo.libs Demo.steady_clock) Demo.default_cfg
                           (Demo.world "/w" Demo.fs1))))
       ["w"; "diagrams"; "a.mmd"]
     = Fs.node (w_fs (Demo.world "/w" Demo.fs1)) ["w"; "diagrams"; "a.mmd"].
Proof.
  split; [by_computation|].
  apply (run_changes_only_the_output_places
           (Demo.libs Demo.steady_clock) Demo.default_cfg (Demo.world "/w" Demo.fs1)).
  by_computation.
Defined.

(** X14, on the same tree: the image of [a.mmd]. *)
Lemma written_images_witness :
  has_written "/w/diagrams/a.png"
    (calls_since (Demo.world "/w" Demo.fs1)
       (snd (run (Demo.libs Demo.steady_clock) Demo.default_cfg
               (Demo.world "/w" Demo.fs1)))) = true
  /\ Fs.is_file
       (w_fs (snd (run (Demo.libs Demo.steady_clock) Demo.default_cfg
                     (Demo.world "/w" Demo.fs1))))
       ["w"; "diagrams"; "a.png"] = true.
Proof.
  split; [by_computation|].
  apply (written_images_are_on_disk
           (Demo.libs Demo.steady_clock) Demo.default_cfg (Demo.world "/w" Demo.fs1)
           "/w/diagrams/a.png").
  by_computation.
Defined.

(** ** When a conversion returns *)

Section ConversionOutcome.

Context {Dom : Type} (L : Libs Dom) (cfg : Config).


End ConversionOutcome.


(** ** The paths of the success line (script line 84) *)

Lemma strip_common_app (common a b : list string) :
  Path.strip_common (common ++ a) (common ++ b) = Path.strip_common a b.
Proof.
  induction common as [|x common IH]; [reflexivity|].
  cbn [app Path.strip_common]. rewrite String.eqb_refl. exact IH.
Qed.

Lemma strip_common_diverge (a b : list string) :
  diverge a b = true -> Path.strip_common a b = (a, b).
Proof.
  destruct a as [|x a], b as [|y b]; try reflexivity.
  cbn. intros H. apply negb_true_iff in H. rewrite H. reflexivity.
Qed.

(** X16: [path.relative] between two resolved paths drops the segments
    they share, climbs out of what is left of the first and goes down what
    is left of the second.  A file below the working directory is shown by
    its path from there, without a leading slash. *)
Theorem paths_are_shown_from_the_working_directory (common a b : list string) :
  forallb plain (common ++ a ++ b) = true ->
  diverge a b = true ->
  let cwd := Path.of_segs (common ++ a) in
  Path.relative cwd cwd (Path.of_segs (common ++ b))
  = Js.join "/" (map (fun _ => "..") a ++ b).
Proof.
  intros Hall Hd cwd. rewrite !forallb_app in Hall.
  apply andb_true_iff in Hall as [Hc Hab]. apply andb_true_iff in Hab as [Ha Hb].
  unfold Path.relative, cwd.
  rewrite !PathFacts.resolve_segs_of_segs
    by (rewrite forallb_app, Hc; try rewrite Ha; try rewrite Hb; reflexivity).
  rewrite strip_common_app, (strip_common_diverge a b Hd). reflexivity.
Qed.

(** For [diagrams/a.mmd] in [/w]. *)
Lemma shown_path_witness :
  forallb plain (["w"] ++ [] ++ ["diagrams"; "a.mmd"]) = true
  /\ Path.relative "/w" "/w" "/w/diagrams/a.mmd" = "diagrams/a.mmd".
Proof.
  split; [reflexivity|].
  apply (paths_are_shown_from_the_working_directory ["w"] [] ["diagrams"; "a.mmd"]);
    reflexivity.
Defined.

(** ** From the pattern to the image's name *)

Module MatchFacts.









End MatchFacts.



(** ** The string and path functions on sample inputs *)

Example config_defaults :
  config_of_env {[ "OUTPUT_DIR" := "" ]} = Demo.default_cfg.
Proof. reflexivity. Qed.
Example config_override :
  OUTPUT_DIR (config_of_env {[ "OUTPUT_DIR" := "out" ]}) = "out".
Proof. reflexivity. Qed.
Example glob_star_ex :
  Glob.path_match false true (Glob.parse "diagrams/**/*.mmd") ["diagrams"; "sub"; "Flow.MMD"]
  = true.
Proof. reflexivity. Qed.
Example glob_dot_ex :
  Glob.path_match false true (Glob.parse "diagrams/**/*.mmd") ["diagrams"; ".git"; "a.mmd"]
  = false.
Proof. reflexivity. Qed.
Example replace_nonword_ex : Js.replace_nonword "my flow-chart.v2.mmd" = "my_flow_chart_v2_mmd".
Proof. reflexivity. Qed.
Example replace_ext_ex1 : Js.replace_ext "a.b.MMD" = "a.b.png".
Proof. reflexivity. Qed.
Example replace_ext_ex2 : Js.replace_ext "a.mmd.bak" = "a.mmd.bak".
Proof. reflexivity. Qed.
Example basename_ex : Path.basename "/w/diagrams/sub/a.mmd//" = "a.mmd".
Proof. reflexivity. Qed.
Example join_ex : Path.join "/w/out" "a.png" = "/w/out/a.png".
Proof. reflexivity. Qed.
Example join_ex2 : Path.join "/" "a.png" = "/a.png".
Proof. reflexivity. Qed.
Example resolve_ex : Path.resolve "/w" "../x/./diagrams/" = "/x/diagrams".
Proof. reflexivity. Qed.
Example resolve_ex2 : Path.resolve "/w" "/" = "/".
Proof. reflexivity. Qed.
Example relative_ex : Path.relative "/w" "/w" "/w/diagrams/a.png" = "diagrams/a.png".
Proof. reflexivity. Qed.
Example normalize_ex : Path.normalize "a/../../b/" = "../b/".
Proof. reflexivity. Qed.
